(** * MineScan Discord bot: the paged server browser of [main.py]

    A shallow embedding of the part of [main.py] that browses the remote
    server list: [fetch_servers] and its sibling [fetch_random_servers],
    [map_authmode], the view [ServerInfoButtons] with [update_buttons],
    and the two button callbacks [ServerButton.callback] and
    [PageButton.callback].

    Python values that come out of [response.json()] are modelled by the
    type [json]; a Python [str] is a [string] whose characters are code
    points below 256; a Python [int] is a [Z], and the numbers of a JSON
    document are integers.  A Python [dict] that the
    program keeps and mutates (the [params] of a view, the keyword
    dictionary of [fetch_servers]) lives in a store indexed by locations,
    so that aliasing is visible.  Exceptions are explicit: every operation
    that can raise returns in a state-and-exception monad [M], and an
    exception leaves the mutations made before it in place, as in Python. *)

From stdpp Require Import gmap strings list fin_maps.
From Stdlib Require Import ZArith Ascii String Lia.

Local Open Scope string_scope.
Local Open Scope list_scope.
Local Open Scope Z_scope.

(** ** Python values *)

#[warnings="-register-all"]
Inductive json : Type :=
| JNull
| JBool (b : bool)
| JNum (n : Z)
| JStr (s : string)
| JList (l : list json)
| JDict (d : list (string * json)).

(** The exceptions the modelled code can raise. *)
Inductive exn : Type :=
| ConnectionError   (* requests.get: any transport failure *)
| JSONDecodeError   (* response.json() on a body that is not JSON *)
| AttributeError    (* a method looked up on a value that lacks it *)
| TypeError         (* slicing a value that is no sequence; a keyword given twice *)
| ValueError.       (* datetime.fromisoformat on a malformed string *)

(** [bool(v)]: the truth value Python gives a JSON value. *)
Definition truthy (v : json) : bool :=
  match v with
  | JNull => false
  | JBool b => b
  | JNum n => negb (Z.eqb n 0)
  | JStr s => negb (String.eqb s "")
  | JList l => match l with [] => false | _ => true end
  | JDict d => match d with [] => false | _ => true end
  end.

(** [d.get(k)] on the items of a dict: [None] when the key is absent. *)
Fixpoint dict_get (d : list (string * json)) (k : string) : option json :=
  match d with
  | [] => None
  | (k', v) :: d' => if String.eqb k' k then Some v else dict_get d' k
  end.

(** [str.lower()] on code points below 256: the letters A-Z, and
    U+00C0-U+00DE except the multiplication sign U+00D7, move up by 32. *)
Definition lower_char (c : ascii) : ascii :=
  let n := N_of_ascii c in
  if ((65 <=? n) && (n <=? 90))%N
     || ((192 <=? n) && (n <=? 222) && negb (n =? 215))%N
  then ascii_of_N (n + 32) else c.

Fixpoint lower (s : string) : string :=
  match s with
  | EmptyString => EmptyString
  | String c s' => String (lower_char c) (lower s')
  end.

(** [s.replace(c, by)] for a one-character pattern. *)
Fixpoint replace_char (c : ascii) (by_ : string) (s : string) : string :=
  match s with
  | EmptyString => EmptyString
  | String a s' =>
      if Ascii.eqb a c then String.append by_ (replace_char c by_ s')
      else String a (replace_char c by_ s')
  end.

(** ** Pure code that may raise: the exception monad *)

Definition result (A : Type) : Type := exn + A.

#[export] Instance result_ret : MRet result := fun A a => inr a.
#[export] Instance result_bind : MBind result :=
  fun A B f m => match m with inl e => inl e | inr a => f a end.

(** [v.get(k, dflt)]: a dict method; any other JSON value has no [get]. *)
Definition py_get (v : json) (k : string) (dflt : json) : result json :=
  match v with
  | JDict d => inr (default dflt (dict_get d k))
  | _ => inl AttributeError
  end.

(** [v.lower()]: a str method. *)
Definition py_lower (v : json) : result string :=
  match v with
  | JStr s => inr (lower s)
  | _ => inl AttributeError
  end.

(** [v.replace("Z", "+00:00")]: a str method. *)
Definition py_replace_Z (v : json) : result string :=
  match v with
  | JStr s => inr (replace_char "Z"%char "+00:00" s)
  | _ => inl AttributeError
  end.

(** ** map_authmode *)

Record auth_info : Type := AuthInfo { icon : string; text : string }.

Definition auth_map : gmap string auth_info :=
  {[ "online" := AuthInfo ":white_check_mark:" "Online Mode";
     "offline" := AuthInfo ":x:" "Offline (Cracked)";
     "whitelist" := AuthInfo ":lock:" "Whitelisted" ]}.

Definition auth_default : auth_info := AuthInfo ":question:" "Unknown".

(** [auth_map.get((authmode_str or "").lower(), default)] *)
Definition map_authmode (authmode_str : json) : result auth_info :=
  key ← py_lower (if truthy authmode_str then authmode_str else JStr "");
  mret (default auth_default (auth_map !! key)).

(** ** ServerButton.callback: the detail record of one server *)

(** An embed field value is kept symbolic: literal text, [str(v)] of a JSON
    value, or a formatted integer. *)
Inductive piece : Type :=
| Lit (s : string)
| StrOf (v : json)
| IntOf (n : Z).

Record field : Type :=
  Field { f_name : list piece; f_value : list piece; f_inline : bool }.

Definition nl : string := String (ascii_of_nat 10) EmptyString.

Section ServerButton.

(** [iso_timestamp s] stands for the library computation
    [int(datetime.fromisoformat(s).replace(tzinfo=timezone.utc).timestamp())];
    it is [None] where [fromisoformat] raises [ValueError]. *)
Variable iso_timestamp : string -> option Z.

Definition last_seen (last_seen_raw : json) : result (list piece) :=
  if truthy last_seen_raw then
    s ← py_replace_Z last_seen_raw;
    match iso_timestamp s with
    | Some last_seen_ts => mret [Lit "<t:"; IntOf last_seen_ts; Lit ":R>"]
    | None => inl ValueError
    end
  else mret [Lit "Unknown"].

(** The embed that [callback] sends, or the exception that leaves it. *)
Definition ServerButton_callback (server : json) : result (list field) :=
  last_seen_raw ← py_get server "lastSeen" JNull;
  last_seen_display ← last_seen last_seen_raw;
  ip ← py_get server "serverip" JNull;
  geo ← py_get server "geolocation" (JDict []);
  version ← py_get server "version" (JStr "Unknown");
  country ← py_get geo "country" (JStr "Unknown");
  flag ← py_lower country;
  countryName ← py_get geo "countryName" (JStr "Unknown");
  city ← py_get geo "city" (JStr "Unknown");
  authmode ← py_get server "authmode" JNull;
  auth ← map_authmode authmode;
  onlinePlayers ← py_get server "onlinePlayers" (JNum 0);
  maxPlayers ← py_get server "maxPlayers" (JNum 0);
  mret [ Field [Lit "IP"] [StrOf ip] false;
         Field [Lit "Version"] [StrOf version] true;
         Field [Lit "Country"] [Lit ":flag_"; Lit flag; Lit ": "; StrOf countryName] true;
         Field [Lit "City"] [StrOf city] true;
         Field [Lit "Last Seen"] last_seen_display true;
         Field [Lit "Authentication"] [Lit (icon auth); Lit " "; Lit (text auth)] true;
         Field [Lit "Online Players"] [StrOf onlinePlayers] true;
         Field [Lit "Max Players"] [StrOf maxPlayers] true ].

End ServerButton.

(** ** The store, the network and the monad of stateful code *)

Definition loc : Type := nat.

(** The values of a query dictionary: [str] or [int]. *)
Inductive qval : Type :=
| QStr (s : string)
| QInt (n : Z).

Record request : Type := Request { url : string; query : gmap string qval }.
Record response : Type := Response { status_code : Z; body : option json }.

(** What [requests.get] meets: a response, or [None] for a transport
    failure.  The body is [None] when it is not JSON. *)
Definition network : Type := request -> option response.

Inductive item : Type :=
| ServerButton (number : Z) (server : json)     (* label "Server <number>" *)
| PageButton (label : string) (direction : Z).

Record ServerInfoButtons : Type := mkView {
  servers : json;
  page : Z;
  params : loc;
  start_index : Z;
  children : list item
}.

(** One view, the dictionaries of the heap, and the requests issued so far
    (oldest first). *)
Record world : Type := mkWorld {
  view : ServerInfoButtons;
  dicts : gmap loc (gmap string qval);
  sent : list request
}.

Definition M (A : Type) : Type := world -> result A * world.

#[export] Instance M_ret : MRet M := fun A a w => (inr a, w).
#[export] Instance M_bind : MBind M :=
  fun A B f m w =>
    match m w with
    | (inl e, w') => (inl e, w')
    | (inr a, w') => f a w'
    end.

Definition raise {A} (e : exn) : M A := fun w => (inl e, w).
Definition lift {A} (r : result A) : M A := fun w => (r, w).

(** [try: m  except: h] with a bare [except]. *)
Definition try_except {A} (m h : M A) : M A :=
  fun w => match m w with
           | (inl _, w') => h w'
           | (inr a, w') => (inr a, w')
           end.

Definition exec {A} (m : M A) (w : world) : world := snd (m w).
Definition outcome {A} (m : M A) (w : world) : result A := fst (m w).

(** Reading and assigning the attributes of the view. *)
Definition get {A} (f : ServerInfoButtons -> A) : M A :=
  fun w => (inr (f (view w)), w).
Definition set_view (f : ServerInfoButtons -> ServerInfoButtons) : M unit :=
  fun w => (inr tt, mkWorld (f (view w)) (dicts w) (sent w)).

Definition set_servers (x : json) : M unit :=
  set_view (fun v => mkView x (page v) (params v) (start_index v) (children v)).
Definition set_page (x : Z) : M unit :=
  set_view (fun v => mkView (servers v) x (params v) (start_index v) (children v)).
Definition set_start_index (x : Z) : M unit :=
  set_view (fun v => mkView (servers v) (page v) (params v) x (children v)).
Definition set_children (x : list item) : M unit :=
  set_view (fun v => mkView (servers v) (page v) (params v) (start_index v) x).

(** Dictionaries of the heap. *)
Definition read_dict (l : loc) : M (gmap string qval) :=
  fun w => (inr (default ∅ (dicts w !! l)), w).
Definition alloc_dict (d : gmap string qval) : M loc :=
  fun w => let l := fresh (dom (dicts w)) in
           (inr l, mkWorld (view w) (<[l := d]> (dicts w)) (sent w)).
Definition dict_setitem (l : loc) (k : string) (x : qval) : M unit :=
  fun w => (inr tt,
            mkWorld (view w)
                    (<[l := <[k := x]> (default ∅ (dicts w !! l))]> (dicts w))
                    (sent w)).

(** [requests.get(url, params=q)] *)
Definition requests_get (net : network) (u : string) (q : gmap string qval)
  : M response :=
  fun w => let r := Request u q in
           let w' := mkWorld (view w) (dicts w) (sent w ++ [r]) in
           match net r with
           | Some resp => (inr resp, w')
           | None => (inl ConnectionError, w')
           end.

(** [response.json()] *)
Definition response_json (r : response) : M json :=
  match body r with
  | Some v => mret v
  | None => raise JSONDecodeError
  end.

(** ** The fetchers *)

Definition API_URL : string := "https://mcapi.shit.vc/servers".

(** The body of [fetch_servers(page, **params)]; [params] is the location
    of the keyword dictionary that the call built. *)
Definition fetch_servers (net : network) (page : Z) (params : loc) : M json :=
  dict_setitem params "page" (QInt page);;
  q ← read_dict params;
  response ← requests_get net API_URL q;
  if negb (Z.eqb (status_code response) 200) then mret (JList [])
  else
    data ← response_json response;
    lift (py_get data "servers" (JList [])).

(** The call [fetch_servers(page=pg, **d)]: the keywords of [d] are copied
    into a new dictionary; a key "page" in [d] collides with the keyword
    [page] and the call raises before the body runs. *)
Definition call_fetch_servers (net : network) (pg : Z) (d : loc) : M json :=
  kw ← read_dict d;
  if decide (is_Some (kw !! "page")) then raise TypeError
  else
    params ← alloc_dict kw;
    fetch_servers net pg params.

Definition fetch_random_servers (net : network) : M json :=
  try_except
    (response ← requests_get net (String.append API_URL "/random") ∅;
     if Z.eqb (status_code response) 200 then
       data ← response_json response;
       lift (py_get data "servers" (JList []))
     else mret (JList []))
    (mret (JList [])).

(** ** The view ServerInfoButtons *)

(** [l[start:stop]] for [0 <= start <= stop], the only slices taken here:
    the slice is clipped to the items there are. *)
Definition slice {A} (l : list A) (start stop : Z) : list A :=
  take (Z.to_nat (stop - start)) (drop (Z.to_nat start) l).

Fixpoint chars (s : string) : list json :=
  match s with
  | EmptyString => []
  | String c s' => JStr (String c EmptyString) :: chars s'
  end.

(** [v[start:stop]]: lists and strings are sliced, nothing else is. *)
Definition py_slice (v : json) (start stop : Z) : result (list json) :=
  match v with
  | JList l => inr (slice l start stop)
  | JStr s => inr (slice (chars s) start stop)
  | _ => inl TypeError
  end.

Definition update_buttons : M unit :=
  set_children [];;
  si ← get start_index;
  svs ← get servers;
  let start := si `mod` 20 in
  let end_ := start + 5 in
  window ← lift (py_slice svs start end_);
  set_children
    (imap (fun index server => ServerButton (si + Z.of_nat index + 1) server)
          window
     ++ [PageButton "Previous" (-1); PageButton "Next" 1]).

(** [ServerInfoButtons(servers, page, params)]: [params or {}] keeps a
    non-empty dictionary and replaces an empty or absent one by a new one. *)
Definition ServerInfoButtons_init (svs : json) (pg : Z) (ps : option loc)
  : M unit :=
  l ← match ps with
      | Some l =>
          d ← read_dict l;
          if decide (d = ∅) then alloc_dict ∅ else mret l
      | None => alloc_dict ∅
      end;
  set_view (fun _ => mkView svs pg l 0 []);;
  update_buttons.

(** ** The result embed of a window *)

(** One field of the result embed, for the server shown as number [i]. *)
Definition server_field (i : Z) (server : json) : result field :=
  ip ← py_get server "serverip" JNull;
  geo ← py_get server "geolocation" (JDict []);
  authmode ← py_get server "authmode" JNull;
  auth ← map_authmode authmode;
  version ← py_get server "version" (JStr "Unknown");
  country ← py_get geo "country" (JStr "Unknown");
  flag ← py_lower country;
  countryName ← py_get geo "countryName" (JStr "Unknown");
  city ← py_get geo "city" (JStr "Unknown");
  mret (Field [Lit "Server "; IntOf i]
          [Lit "**IP:** "; StrOf ip; Lit nl;
           Lit "**Version:** "; StrOf version; Lit nl;
           Lit "**Location:** :flag_"; Lit flag; Lit ": "; StrOf countryName;
           Lit ", "; StrOf city; Lit nl;
           Lit "**Authentication:** "; Lit (icon auth); Lit " "; Lit (text auth)]
          false).

(** [for i, server in enumerate(window, start=i): embed.add_field(...)] *)
Fixpoint server_fields (i : Z) (window : list json) : result (list field) :=
  match window with
  | [] => mret []
  | server :: rest =>
      f ← server_field i server;
      fs ← server_fields (i + 1) rest;
      mret (f :: fs)
  end.

(** ** PageButton.callback *)

(** Lines 213-231: move the window by five and turn the page when the
    window leaves the loaded page. *)
Definition move_window (direction : Z) (net : network) : M unit :=
  si ← get start_index;
  set_start_index (si + direction * 5);;
  si ← get start_index;
  if 20 <=? si then
    pg ← get page;
    set_page (pg + 1);;
    set_start_index 0;;
    pg ← get page;
    ps ← get params;
    r ← call_fetch_servers net pg ps;
    set_servers r
  else if si <? 0 then
    pg ← get page;
    if pg =? 1 then set_start_index 0
    else
      set_page (pg - 1);;
      set_start_index 15;;
      pg ← get page;
      ps ← get params;
      r ← call_fetch_servers net pg ps;
      set_servers r
  else mret tt.

(** Lines 235-257: the fields of the embed for the visible window. *)
Definition window_embed : M (list field) :=
  start ← get start_index;
  svs ← get servers;
  window ← lift (py_slice svs start (start + 5));
  lift (server_fields (start + 1) window).

(** The callback of a page button of direction [direction]; it returns the
    fields of the embed handed to [edit_message]. *)
Definition PageButton_callback (direction : Z) (net : network)
  : M (list field) :=
  move_window direction net;;
  update_buttons;;
  window_embed.

(** ** The command /server: the creation of a session *)

(** [if x: params[k] = x] *)
Definition set_filter (params : loc) (k : string) (x : option qval) : M unit :=
  match x with
  | Some v => dict_setitem params k v
  | None => mret tt
  end.

(** The value of a text option when it is given and not empty. *)
Definition given (s : option string) : option qval :=
  match s with
  | Some s => if truthy (JStr s) then Some (QStr s) else None
  | None => None
  end.

(** The command builds the parameters from the options given, fetches the
    first page and, unless the fetch returned nothing, creates the view on
    the same dictionary.  It returns the fields of the first embed, or
    [None] when it answers "No servers found". *)
Definition server_cmd (net : network) (page : Z)
    (software country version sort authmode : option string)
    (minplayers : option Z) : M (option (list field)) :=
  params ← alloc_dict ∅;
  set_filter params "software" (given software);;
  set_filter params "version" (given version);;
  set_filter params "sort" (QStr <$> sort);;
  set_filter params "authmode" (QStr <$> authmode);;
  set_filter params "minPlayers" (QInt <$> minplayers);;
  set_filter params "country" (given country);;
  servers ← call_fetch_servers net page params;
  if negb (truthy servers) then mret None
  else
    ServerInfoButtons_init servers page (Some params);;
    window ← lift (py_slice servers 0 5);
    fs ← lift (server_fields 1 window);
    mret (Some fs).

(** ** Navigation events *)

Inductive direction : Type := Previous | Next.

Definition direction_value (d : direction) : Z :=
  match d with Previous => -1 | Next => 1 end.

(** A click on one of the two page buttons, with the network it meets. *)
Definition navigate (ev : direction * network) : M (list field) :=
  PageButton_callback (direction_value ev.1) ev.2.

(** The world after a sequence of clicks.  An exception that leaves a
    callback is reported by the framework and the view lives on, so the
    next click starts from the world the failed callback left. *)
Fixpoint run (evs : list (direction * network)) (w : world) : world :=
  match evs with
  | [] => w
  | ev :: evs' => run evs' (exec (navigate ev) w)
  end.

(** The worlds after each click of a sequence. *)
Fixpoint trace (evs : list (direction * network)) (w : world) : list world :=
  match evs with
  | [] => []
  | ev :: evs' => let w' := exec (navigate ev) w in w' :: trace evs' w'
  end.

(** * Definitions used in the statements *)

(** What a fetch with query [q] returns, read off the network. *)
Definition fetch_outcome (net : network) (q : gmap string qval) : result json :=
  match net (Request API_URL q) with
  | None => inl ConnectionError
  | Some r =>
      if negb (Z.eqb (status_code r) 200) then inr (JList [])
      else match body r with
           | None => inl JSONDecodeError
           | Some data => py_get data "servers" (JList [])
           end
  end.

(** The world a page turn to page [pg'] and offset [si'] leaves, and how
    the turn ends: the page number and the offset are assigned before the
    fetch, the servers after it. *)
Definition turned (net : network) (w : world) (pg' si' : Z) : result unit * world :=
  let v := view w in
  let P := default ∅ (dicts w !! params v) in
  let q := <["page" := QInt pg']> P in
  let moved x := mkView x pg' (params v) si' (children v) in
  if decide (is_Some (P !! "page")) then
    (inl TypeError, mkWorld (moved (servers v)) (dicts w) (sent w))
  else
    let ds := <[fresh (dom (dicts w)) := q]> (dicts w) in
    let sn := sent w ++ [Request API_URL q] in
    match fetch_outcome net q with
    | inl e => (inl e, mkWorld (moved (servers v)) ds sn)
    | inr r => (inr tt, mkWorld (moved r) ds sn)
    end.

(** [w'] differs from [w] at most in the buttons shown. *)
Definition same_session (w w' : world) : Prop :=
  servers (view w') = servers (view w) /\
  page (view w') = page (view w) /\
  params (view w') = params (view w) /\
  start_index (view w') = start_index (view w) /\
  dicts w' = dicts w /\
  sent w' = sent w.

(** The children [update_buttons] gives a view at offset [si] whose window
    is [window]. *)
Definition window_buttons (si : Z) (window : list json) : list item :=
  imap (fun index server => ServerButton (si + Z.of_nat index + 1) server) window
  ++ [PageButton "Previous" (-1); PageButton "Next" 1].

(** The request of a fetch of page [pg] with the parameters [P]. *)
Definition page_request (P : gmap string qval) (pg : Z) : request :=
  Request API_URL (<["page" := QInt pg]> P).

(** The dictionary at [l] exists and has no key "page". *)
Definition has_filters (w : world) (l : loc) : Prop :=
  exists P, dicts w !! l = Some P /\ P !! "page" = None.

(** ** Sample data, for the concrete cases *)

(** Networks: one that is unreachable, one that answers 200 with a body
    that is not JSON, one that answers a given status and body. *)
Definition net_down : network := fun _ => None.
Definition net_garbled : network := fun _ => Some (Response 200 None).
Definition net_status (code : Z) (data : option json) : network :=
  fun _ => Some (Response code data).

(** A network whose every page is empty. *)
Definition net_empty : network :=
  net_status 200 (Some (JDict [("servers", JList []); ("total", JNum 0)])).

Definition sample_server (n : Z) : json :=
  JDict [("serverip", JStr "198.51.100.1:25565");
         ("version", JStr "1.20.1");
         ("onlinePlayers", JNum n);
         ("geolocation", JDict [("country", JStr "EE");
                                ("countryName", JStr "Estonia");
                                ("city", JStr "Tallinn")]);
         ("authmode", JStr "online")].

Definition sample_page (n : nat) : json :=
  JList (map (fun i => sample_server (Z.of_nat i)) (seq 0 n)).

(** A network that answers every request with a page of [n] servers. *)
Definition net_page (n : nat) : network :=
  net_status 200 (Some (JDict [("servers", sample_page n); ("total", JNum 1000)])).

(** A session on page [pg] at offset [si] showing [svs], with the filter
    [software=Paper]. *)
Definition sample_session (pg si : Z) (svs : json) : world :=
  mkWorld (mkView svs pg 0%nat si [])
          {[ 0%nat := {[ "software" := QStr "Paper" ]} ]}
          [].

(** A server record whose [lastSeen] names the 30th of February. *)
Definition server_bad_timestamp : json :=
  JDict [("serverip", JStr "203.0.113.7:25565");
         ("version", JStr "1.20.1");
         ("lastSeen", JStr "2024-02-30T10:00:00Z");
         ("geolocation", JDict [("country", JStr "EE");
                                ("countryName", JStr "Estonia");
                                ("city", JStr "Tallinn")]);
         ("authmode", JStr "online")].

(** A timestamp parser that agrees with [fromisoformat] on the strings used
    here: it takes one valid timestamp and rejects every other string. *)
Definition iso_sample (s : string) : option Z :=
  if String.eqb s "2023-11-14T22:13:20+00:00" then Some 1700000000 else None.

(** A server record whose [geolocation] is [null]. *)
Definition server_no_geo : json :=
  JDict [("serverip", JStr "203.0.113.7:25565");
         ("version", JStr "1.20.1");
         ("geolocation", JNull);
         ("authmode", JStr "online")].

(** * The other fetchers and commands of [main.py] *)

(** ** More Python operations *)

(** [k in s] for two strings: [k] occurs in [s]. *)
Fixpoint occurs (k s : string) : bool :=
  String.prefix k s
  || match s with
     | EmptyString => false
     | String _ s' => occurs k s'
     end.

(** [x == k] for a JSON value [x] and a string [k]. *)
Definition equals_str (k : string) (x : json) : bool :=
  match x with
  | JStr s => String.eqb s k
  | _ => false
  end.

(** [k in v]: a key of a dict, an element of a list, a part of a string;
    any other value is not a container. *)
Definition py_contains (k : string) (v : json) : result bool :=
  match v with
  | JDict d => inr (bool_decide (is_Some (dict_get d k)))
  | JList l => inr (existsb (equals_str k) l)
  | JStr s => inr (occurs k s)
  | _ => inl TypeError
  end.

(** The keys of a dict, each once, in the order of their first item. *)
Fixpoint dict_keys (d : list (string * json)) : list string :=
  match d with
  | [] => []
  | (k, _) :: d' => k :: filter (fun k' => k' <> k) (dict_keys d')
  end.

(** [for x in v]: the elements of a list, the characters of a string, the
    keys of a dict; any other value is not iterable. *)
Definition py_iter (v : json) : result (list json) :=
  match v with
  | JList l => inr l
  | JStr s => inr (chars s)
  | JDict d => inr (JStr <$> dict_keys d)
  | _ => inl TypeError
  end.

(** [a or b] *)
Definition py_or (a b : json) : json := if truthy a then a else b.

(** [str.isspace()] on code points below 256. *)
Definition is_space (c : ascii) : bool :=
  let n := N_of_ascii c in
  (((9 <=? n) && (n <=? 13)) || ((28 <=? n) && (n <=? 32))
   || (n =? 133) || (n =? 160))%N.

Fixpoint lstrip (s : string) : string :=
  match s with
  | EmptyString => EmptyString
  | String c s' => if is_space c then lstrip s' else s
  end.

Fixpoint rstrip (s : string) : string :=
  match s with
  | EmptyString => EmptyString
  | String c s' =>
      match rstrip s' with
      | EmptyString => if is_space c then EmptyString else String c EmptyString
      | t => String c t
      end
  end.

(** [s.strip()] *)
Definition strip (s : string) : string := rstrip (lstrip s).

Fixpoint concat_str (l : list string) : string :=
  match l with
  | [] => EmptyString
  | s :: l' => String.append s (concat_str l')
  end.


(** ** fetch_total_servers, fetch_whereis, fetch_who *)

Definition API_URL_WHEREIS : string := "https://mcapi.shit.vc/whereis".
Definition API_URL_WHO : string := "https://mcapi.shit.vc/who".

Definition fetch_total_servers (net : network) : M json :=
  try_except
    (response ← requests_get net API_URL ∅;
     if Z.eqb (status_code response) 200 then
       data ← response_json response;
       lift (py_get data "total" (JNum 0))
     else mret (JNum 0))
    (mret (JNum 0)).

(** [p.get("name", "").lower() == identifier.lower()] *)
Definition name_matches (identifier : string) (p : json) : result bool :=
  name ← py_get p "name" (JStr "");
  n ← py_lower name;
  mret (String.eqb n (lower identifier)).

(** The loop of [fetch_whereis]: the first player whose name matches, or
    [None]; a player that is no dict, or whose name is no string, raises. *)
Fixpoint first_match (identifier : string) (players : list json) : result json :=
  match players with
  | [] => inr JNull
  | p :: rest =>
      b ← name_matches identifier p;
      if (b : bool) then inr p else first_match identifier rest
  end.

(** [fetch_whereis] after the request: what it returns for the body [data]. *)
Definition whereis_pick (identifier : string) (data : json) : result json :=
  has_players ← py_contains "players" data;
  whole ← (if negb has_players then name_matches identifier data
           else mret false);
  if (whole : bool) then mret data
  else
    players ← py_get data "players" (JList []);
    ps ← py_iter (py_or players (JList []));
    first_match identifier ps.

Definition fetch_whereis (net : network) (identifier : string) : M json :=
  r ← requests_get net (String.append API_URL_WHEREIS (String.append "/" identifier)) ∅;
  if negb (Z.eqb (status_code r) 200) then mret JNull
  else
    data ← response_json r;
    lift (whereis_pick identifier data).

Definition fetch_who (net : network) (server_ip : string) : M json :=
  r ← requests_get net (String.append API_URL_WHO (String.append "/" server_ip)) ∅;
  if negb (Z.eqb (status_code r) 200) then mret JNull
  else response_json r.

(** ** The commands /whereis and /whois, up to the result embed *)

(** [bool(s)] for an optional text argument. *)
Definition provided (s : option string) : bool :=
  match s with
  | Some s => truthy (JStr s)
  | None => false
  end.

(** What [whereis_cmd] has decided when it reaches line 439: one of its
    four messages, or the player and the servers to show. *)
Inductive whereis_reply : Type :=
| ProvideEither
| ProvideOnlyOne
| NoServersFound (identifier : string)
| ShowServers (search_type : string) (player servers : json).

(** Lines 415-437 of [whereis_cmd]. *)
Definition whereis_cmd (net : network) (username uuid : option string)
  : M whereis_reply :=
  if negb (provided username) && negb (provided uuid) then mret ProvideEither
  else if provided username && provided uuid then mret ProvideOnlyOne
  else
    let identifier := default "" (if provided uuid then uuid else username) in
    let search_type := if provided uuid then "UUID" else "Username" in
    data ← fetch_whereis net identifier;
    if negb (truthy data) then mret (NoServersFound identifier)
    else
      servers ← lift (py_get data "servers" (JList []));
      if negb (truthy servers) then mret (NoServersFound identifier)
      else mret (ShowServers search_type data servers).

Inductive whois_reply : Type :=
| NoPlayersFound (server_ip : string)
| ShowPlayers (data players : json).

(** Lines 482-492 of [whois_cmd]. *)
Definition whois_cmd (net : network) (server_ip : string) : M whois_reply :=
  data ← fetch_who net server_ip;
  if negb (truthy data) then mret (NoPlayersFound server_ip)
  else
    players ← lift (py_get data "players" (JList []));
    if negb (truthy players) then mret (NoPlayersFound server_ip)
    else mret (ShowPlayers data players).

(** ** clean_motd and the command /mcinfo *)

(** An element of [motd.parsed]: a string, or a formatting object. *)
Inductive component : Type :=
| CStr (s : string)
| CFormat.

(** The message of the day as [mcstatus] hands it over: the attributes
    [raw] and [parsed], absent when [hasattr] is false, and [str(motd)]. *)
Record motd : Type := Motd {
  raw : option json;
  parsed : option (list component);
  motd_str : string
}.

(** [base + joined]: defined on two strings. *)
Definition py_add_str (base : json) (joined : string) : result string :=
  match base with
  | JStr s => inr (String.append s joined)
  | _ => inl TypeError
  end.

(** [x] as an item of [str.join]: it has to be a string. *)
Definition as_str (x : json) : result string :=
  match x with
  | JStr s => inr s
  | _ => inl TypeError
  end.

Fixpoint all_str (l : list json) : result (list string) :=
  match l with
  | [] => inr []
  | x :: l' =>
      s ← as_str x;
      ss ← all_str l';
      mret (s :: ss)
  end.

(** ["".join(v)] *)
Definition py_join_empty (v : json) : result string :=
  items ← py_iter v;
  ss ← all_str items;
  mret (concat_str ss).

Definition strings_of (l : list component) : list string :=
  omap (fun x => match x with CStr s => Some s | CFormat => None end) l.

(** The body of the [try] of [clean_motd]. *)
Definition clean_motd_try (motd_obj : motd) : result string :=
  match raw motd_obj with
  | Some (JDict d) =>
      base ← py_get (JDict d) "text" (JStr "");
      extras ← py_get (JDict d) "extra" (JList []);
      joined ← py_join_empty extras;
      text ← py_add_str base joined;
      mret (strip text)
  | _ =>
      match parsed motd_obj with
      | Some items => mret (strip (concat_str (strings_of items)))
      | None => mret (strip (motd_str motd_obj))
      end
  end.

Definition clean_motd (motd_obj : motd) : string :=
  match clean_motd_try motd_obj with
  | inr s => s
  | inl _ => "Unknown MOTD"
  end.

(** What [server.status()] returns. *)
Record status : Type := Status {
  version_name : string;
  players_online : Z;
  players_max : Z;
  status_motd : motd
}.

(** The server [mcinfo] talks to: each of the three calls made under
    [asyncio.wait_for] either returns or fails (a timeout or any exception). *)
Record java_server : Type := JavaServer {
  lookup_succeeds : bool;
  server_status : option status;
  server_query : option (list string)
}.

(** The messages [mcinfo] hands to [interaction.followup.send]. *)
Inductive mcinfo_reply : Type :=
| CouldNotReach (ip : string)
| ServerInfo (embed : list field) (players : list string).

(** What [mcinfo] does to the outside: its three calls to the server and
    the messages it sends. *)
Inductive call : Type :=
| CallLookup
| CallStatus
| CallQuery
| CallSend (m : mcinfo_reply).

(** Discord: whether it takes a message, given what has happened so far.  A
    message it does not take makes [followup.send] raise. *)
Definition discord : Type := list call -> mcinfo_reply -> bool.

(** Code that calls out and may raise: the calls made so far are threaded
    through, and [None] is an exception; the handlers of [mcinfo] treat all
    exceptions alike. *)
Definition IO (A : Type) : Type := list call -> option A * list call.

#[export] Instance IO_ret : MRet IO := fun A a t => (Some a, t).
#[export] Instance IO_bind : MBind IO :=
  fun A B f m t =>
    match m t with
    | (Some a, t') => f a t'
    | (None, t') => (None, t')
    end.

(** One call to the server, with its outcome. *)
Definition attempt {A} (c : call) (r : option A) : IO A :=
  fun t => (r, t ++ [c]).

(** [await interaction.followup.send(...)] *)
Definition followup_send (d : discord) (m : mcinfo_reply) : IO unit :=
  fun t => (if d t m then Some tt else None, t ++ [CallSend m]).

(** [try: m  except: h], for handlers that catch every exception. *)
Definition try_catch {A} (m h : IO A) : IO A :=
  fun t => match m t with
           | (None, t') => h t'
           | (Some a, t') => (Some a, t')
           end.

(** Lines 559-563: the embed of a status. *)
Definition status_embed (st : status) : list field :=
  let cleaned := clean_motd (status_motd st) in
  [ Field [Lit "Status"] [Lit "Online"] true;
    Field [Lit "Version"] [Lit (version_name st)] true;
    Field [Lit "Players"]
          [IntOf (players_online st); Lit "/"; IntOf (players_max st)] true;
    Field [Lit "MOTD"]
          [Lit (if truthy (JStr cleaned) then cleaned else "Unknown")] false ].

(** [mcinfo]: the lookup and the status call each have their own handlers,
    which answer "Could not reach" and return; the player query has a bare
    [except: pass]; the outer [except Exception] catches whatever is raised
    after that, by the handlers' own messages and by the final message, and
    answers "Could not reach" once more. *)
Definition mcinfo (remote : java_server) (d : discord) (ip : string) : IO unit :=
  try_catch
    (found ← try_catch
               (attempt CallLookup (if lookup_succeeds remote then Some tt else None);;
                mret true)
               (followup_send d (CouldNotReach ip);; mret false);
     if negb found then mret tt
     else
       reached ← try_catch
                   (st ← attempt CallStatus (server_status remote); mret (Some st))
                   (followup_send d (CouldNotReach ip);; mret None);
       match reached with
       | None => mret tt
       | Some st =>
           players ← try_catch (attempt CallQuery (server_query remote)) (mret []);
           followup_send d (ServerInfo (status_embed st) players)
       end)
    (followup_send d (CouldNotReach ip)).



(** ** Definitions used in the further statements *)

(** A value that is a dict whose "name" is a string equal to [identifier]
    up to case. *)
Definition named_like (identifier : string) (v : json) : Prop :=
  exists d s, v = JDict d /\ default (JStr "") (dict_get d "name") = JStr s /\
              lower s = lower identifier.

(** A player record as [/whereis] sends it. *)
Definition player_record (name : string) : json :=
  JDict [("name", JStr name); ("uuid", JStr "069a79f4-44e9-4726-a5be-fca90e38aaf5");
         ("servers", JList [JDict [("ip", JStr "198.51.100.1"); ("port", JNum 25565)]])].

(** A network that answers every request with the given list of players. *)
Definition net_whereis (players : list json) : network :=
  net_status 200 (Some (JDict [("players", JList players)])).

(** [if x: m[k] = x] on the content of a dictionary. *)
Definition opt_insert (k : string) (x : option qval) (m : gmap string qval)
  : gmap string qval :=
  match x with
  | Some v => <[k := v]> m
  | None => m
  end.

(** The parameters [server_cmd] builds from its options. *)
Definition filters_of (software country version sort authmode : option string)
    (minplayers : option Z) : gmap string qval :=
  opt_insert "country" (given country)
    (opt_insert "minPlayers" (QInt <$> minplayers)
       (opt_insert "authmode" (QStr <$> authmode)
          (opt_insert "sort" (QStr <$> sort)
             (opt_insert "version" (given version)
                (opt_insert "software" (given software) ∅))))).

(** The position of the window in the whole result list: the index of its
    first server when every page before it holds 20. *)
Definition abs_index (w : world) : Z :=
  (page (view w) - 1) * 20 + start_index (view w).

(** What a click does to the position. *)
Definition index_step (a : Z) (d : direction) : Z :=
  match d with
  | Next => a + 5
  | Previous => Z.max 0 (a - 5)
  end.

(** A session on a page at least 1 with an offset among 0, 5, 10, 15. *)
Definition well_placed (w : world) : Prop :=
  page (view w) >= 1 /\
  (start_index (view w) = 0 \/ start_index (view w) = 5 \/
   start_index (view w) = 10 \/ start_index (view w) = 15).

(** The servers behind the server buttons of a view, in order. *)
Definition shown_servers (c : list item) : list json :=
  omap (fun b => match b with
                 | ServerButton _ s => Some s
                 | PageButton _ _ => None
                 end) c.

(** The servers shown by [update_buttons] at offset [si]. *)
Definition shown_at (si : Z) (w : world) : list json :=
  shown_servers (children (view (exec (set_start_index si ;; update_buttons) w))).

(** * Properties *)

(** Running a computation of [M]: unfold the monad and the primitive
    operations, then project the fields of the worlds built on the way. *)
Ltac msimpl :=
  cbv [mbind mret M_bind M_ret raise lift get set_view set_servers set_page
       set_start_index set_children read_dict alloc_dict dict_setitem
       requests_get exec outcome];
  cbn [fst snd view dicts sent servers page params start_index children].

(** ** map_authmode *)

Lemma truthy_str (s : string) : s <> "" -> truthy (JStr s) = true.
Proof.
  intros Hs. simpl. destruct (String.eqb_spec s ""); [contradiction | reflexivity].
Qed.

Lemma map_authmode_str (s : string) :
  map_authmode (JStr s) = inr (default auth_default (auth_map !! lower s)).
Proof.
  unfold map_authmode. destruct s as [|c s]; [reflexivity|].
  rewrite truthy_str by discriminate. reflexivity.
Qed.

Lemma auth_map_other (k : string) :
  k <> "online" -> k <> "offline" -> k <> "whitelist" -> auth_map !! k = None.
Proof.
  intros H1 H2 H3. unfold auth_map.
  rewrite !lookup_insert_ne by congruence.
  apply lookup_singleton_ne. congruence.
Qed.

Lemma map_authmode_falsy (v : json) :
  truthy v = false -> map_authmode v = inr auth_default.
Proof. intros H. unfold map_authmode. rewrite H. reflexivity. Qed.

(** C10, as stated, fails: the claim lets [map_authmode] return the Unknown
    pair on every input that is not one of the three modes, but on a truthy
    value that is no string, such as the number 1, [(1 or "")] is [1] and
    [.lower()] raises [AttributeError]. *)
Lemma map_authmode_number_raises :
  map_authmode (JNum 1) = inl AttributeError /\
  map_authmode (JNum 1) <> inr (AuthInfo ":question:" "Unknown").
Proof. split; [reflexivity | discriminate]. Qed.

(** C10, amended. On the inputs its annotation and its [or ""] guard admit,
    [map_authmode] never raises: a string whose lowercasing is "online",
    "offline" or "whitelist" gets that mode's icon and text, whatever its
    case; every other string, and every falsy value ([None], the empty
    string, 0, [False], an empty list or dict), gets the Unknown pair. *)
Theorem map_authmode_total_on_strings :
  (forall s, lower s = "online" ->
     map_authmode (JStr s) = inr (AuthInfo ":white_check_mark:" "Online Mode")) /\
  (forall s, lower s = "offline" ->
     map_authmode (JStr s) = inr (AuthInfo ":x:" "Offline (Cracked)")) /\
  (forall s, lower s = "whitelist" ->
     map_authmode (JStr s) = inr (AuthInfo ":lock:" "Whitelisted")) /\
  (forall s, lower s <> "online" -> lower s <> "offline" ->
     lower s <> "whitelist" ->
     map_authmode (JStr s) = inr (AuthInfo ":question:" "Unknown")) /\
  (forall v, truthy v = false ->
     map_authmode v = inr (AuthInfo ":question:" "Unknown")) /\
  map_authmode JNull = inr (AuthInfo ":question:" "Unknown") /\
  (forall s1 s2, lower s1 = lower s2 ->
     map_authmode (JStr s1) = map_authmode (JStr s2)).
Proof.
  repeat split; try reflexivity.
  - intros s H. rewrite map_authmode_str, H. reflexivity.
  - intros s H. rewrite map_authmode_str, H. reflexivity.
  - intros s H. rewrite map_authmode_str, H. reflexivity.
  - intros s H1 H2 H3. rewrite map_authmode_str, auth_map_other by assumption.
    reflexivity.
  - apply map_authmode_falsy.
  - intros s1 s2 H. rewrite !map_authmode_str, H. reflexivity.
Qed.

Lemma map_authmode_total_on_strings_witness :
  lower "OnLiNe" = "online" /\
  map_authmode (JStr "OnLiNe") = inr (AuthInfo ":white_check_mark:" "Online Mode").
Proof.
  split; [reflexivity|].
  apply (proj1 map_authmode_total_on_strings "OnLiNe"). reflexivity.
Defined.

(** ** ServerButton.callback *)

(** What the callback does attempt: on a record with no field at all every
    display field but the address gets its default, "Unknown" or 0; the
    address is [None]. *)
Lemma ServerButton_callback_missing_fields iso_timestamp :
  ServerButton_callback iso_timestamp (JDict []) =
    inr [ Field [Lit "IP"] [StrOf JNull] false;
          Field [Lit "Version"] [StrOf (JStr "Unknown")] true;
          Field [Lit "Country"]
                [Lit ":flag_"; Lit "unknown"; Lit ": "; StrOf (JStr "Unknown")] true;
          Field [Lit "City"] [StrOf (JStr "Unknown")] true;
          Field [Lit "Last Seen"] [Lit "Unknown"] true;
          Field [Lit "Authentication"] [Lit ":question:"; Lit " "; Lit "Unknown"] true;
          Field [Lit "Online Players"] [StrOf (JNum 0)] true;
          Field [Lit "Max Players"] [StrOf (JNum 0)] true ].
Proof. reflexivity. Qed.

(** A timestamp that [fromisoformat] rejects is not degraded either: the
    [ValueError] leaves the callback. *)
Lemma ServerButton_callback_bad_timestamp iso_timestamp s d :
  s <> "" ->
  iso_timestamp (replace_char "Z"%char "+00:00" s) = None ->
  ServerButton_callback iso_timestamp (JDict (("lastSeen", JStr s) :: d))
    = inl ValueError.
Proof.
  intros Hs Hiso. unfold ServerButton_callback.
  change (py_get (JDict (("lastSeen", JStr s) :: d)) "lastSeen" JNull)
    with (inr (JStr s) : result json).
  cbn [mbind result_bind].
  unfold last_seen. rewrite truthy_str by exact Hs.
  cbn [py_replace_Z mbind result_bind]. rewrite Hiso. reflexivity.
Qed.

(** A record whose [geolocation] is [null] makes the callback raise, but no
    button is ever made for such a record: the result embed is built from
    the same records before the view is sent, and [server_field] raises on
    it first. *)
Lemma ServerButton_callback_null_geolocation_raises :
  forall iso_timestamp,
    ServerButton_callback iso_timestamp server_no_geo = inl AttributeError /\
    forall i, server_field i server_no_geo = inl AttributeError.
Proof. intros iso_timestamp. split; [|intros i]; reflexivity. Qed.

(** On a record that the result embed has accepted, so that its button is
    shown, the callback can only fail on [lastSeen]. *)
Lemma listed_record_fails_on_lastSeen_only iso_timestamp i server f :
  server_field i server = inr f ->
  (exists fs, ServerButton_callback iso_timestamp server = inr fs) \/
  (exists d e,
     server = JDict d /\
     last_seen iso_timestamp (default JNull (dict_get d "lastSeen")) = inl e /\
     ServerButton_callback iso_timestamp server = inl e).
Proof.
  intros H. destruct server as [| | | | |d]; try discriminate H.
  unfold server_field in H. cbn [py_get mbind result_bind] in H.
  destruct (map_authmode (default JNull (dict_get d "authmode"))) as [e|auth] eqn:Ea;
    [discriminate H|].
  cbn [mbind result_bind] in H.
  destruct (default (JDict []) (dict_get d "geolocation")) as [| | | | |g] eqn:Eg;
    try discriminate H.
  cbn [py_get mbind result_bind] in H.
  destruct (default (JStr "Unknown") (dict_get g "country")) as [| | |c| |] eqn:Ec;
    try discriminate H.
  clear H. unfold ServerButton_callback. cbn [py_get mbind result_bind].
  destruct (last_seen iso_timestamp (default JNull (dict_get d "lastSeen")))
    as [e|p] eqn:El; cbn [mbind result_bind].
  - right. exists d, e. auto.
  - left. rewrite Eg. cbn [py_get mbind result_bind]. rewrite Ec.
    cbn [py_lower mbind result_bind]. rewrite Ea. cbn [mbind result_bind].
    eexists. reflexivity.
Qed.

(** C5, the code at a failing input: on a record whose [lastSeen] is a
    string that [fromisoformat] rejects, the [ValueError] leaves the
    callback; nothing degrades the field to "Unknown".  Such a record is
    listed in the result embed without an error, which does not read
    [lastSeen], so its button is shown and can be clicked. *)
Theorem ServerButton_callback_rejected_timestamp_raises :
  forall iso_timestamp d s,
    dict_get d "lastSeen" = Some (JStr s) -> s <> "" ->
    iso_timestamp (replace_char "Z"%char "+00:00" s) = None ->
    ServerButton_callback iso_timestamp (JDict d) = inl ValueError.
Proof.
  intros iso_timestamp d s Hd Hs Hiso. unfold ServerButton_callback.
  cbn [py_get mbind result_bind]. rewrite Hd. cbn [default from_option id].
  unfold last_seen. rewrite truthy_str by exact Hs.
  cbn [py_replace_Z mbind result_bind]. rewrite Hiso. reflexivity.
Qed.

Lemma ServerButton_callback_rejected_timestamp_raises_witness :
  (exists fs, server_fields 1 [server_bad_timestamp] = inr fs) /\
  iso_sample (replace_char "Z"%char "+00:00" "2024-02-30T10:00:00Z") = None /\
  ServerButton_callback iso_sample server_bad_timestamp = inl ValueError.
Proof.
  split; [eexists; reflexivity|]. split; [reflexivity|].
  apply (ServerButton_callback_rejected_timestamp_raises iso_sample _
           "2024-02-30T10:00:00Z").
  - reflexivity.
  - discriminate.
  - reflexivity.
Defined.

(** ** fetch_servers *)

Lemma fetch_servers_spec net pg l w :
  let q := <["page" := QInt pg]> (default ∅ (dicts w !! l)) in
  fetch_servers net pg l w =
    (fetch_outcome net q,
     mkWorld (view w) (<[l := q]> (dicts w)) (sent w ++ [Request API_URL q])).
Proof.
  unfold fetch_servers, fetch_outcome, response_json; msimpl.
  rewrite lookup_insert_eq; cbn [default].
  destruct (net _) as [r|]; [|reflexivity].
  destruct (negb _); [reflexivity|].
  destruct (body r); reflexivity.
Qed.

Lemma call_fetch_servers_spec net pg l w :
  let P := default ∅ (dicts w !! l) in
  let q := <["page" := QInt pg]> P in
  call_fetch_servers net pg l w =
    if decide (is_Some (P !! "page")) then (inl TypeError, w)
    else (fetch_outcome net q,
          mkWorld (view w) (<[fresh (dom (dicts w)) := q]> (dicts w))
                  (sent w ++ [Request API_URL q])).
Proof.
  unfold call_fetch_servers; msimpl.
  destruct (decide _); [reflexivity|].
  rewrite fetch_servers_spec; msimpl.
  rewrite lookup_insert_eq, insert_insert_eq. reflexivity.
Qed.

(** The part of C2 that the code keeps: a response whose status is not 200
    gives the empty list, whatever its body. *)
Lemma fetch_servers_non_200 net pg l w r :
  net (Request API_URL (<["page" := QInt pg]> (default ∅ (dicts w !! l)))) = Some r ->
  status_code r <> 200 ->
  outcome (fetch_servers net pg l) w = inr (JList []).
Proof.
  intros Hr Hs. unfold outcome. rewrite fetch_servers_spec. cbn [fst].
  unfold fetch_outcome. rewrite Hr.
  destruct (Z.eqb_spec (status_code r) 200); [contradiction | reflexivity].
Qed.

(** C2, the code at the failing inputs: when the transport fails,
    [requests.get] raises and [fetch_servers] lets the exception through;
    when the body of a 200 response is not JSON, [response.json()] raises;
    when it is JSON but no object, [.get] raises.  The sibling
    [fetch_random_servers] catches all three and returns the empty list. *)
Theorem fetch_servers_raises_on_failure :
  forall pg l w,
    outcome (fetch_servers net_down pg l) w = inl ConnectionError /\
    outcome (fetch_servers net_garbled pg l) w = inl JSONDecodeError /\
    outcome (fetch_servers (net_status 200 (Some (JList []))) pg l) w
      = inl AttributeError /\
    outcome (fetch_random_servers net_down) w = inr (JList []) /\
    outcome (fetch_random_servers net_garbled) w = inr (JList []) /\
    outcome (fetch_random_servers (net_status 200 (Some (JList [])))) w
      = inr (JList []).
Proof.
  intros pg l w. unfold outcome. rewrite !fetch_servers_spec.
  repeat split.
Qed.

(** ** The state after a page button *)

Lemma update_buttons_same w : same_session w (exec update_buttons w).
Proof.
  unfold update_buttons; msimpl.
  destruct (py_slice _ _ _); cbn; repeat split.
Qed.

Lemma window_embed_same w : exec window_embed w = w.
Proof.
  unfold window_embed; msimpl.
  destruct (py_slice _ _ _) as [e|window]; [reflexivity|].
  destruct (server_fields _ _); reflexivity.
Qed.

Lemma exec_bind {A B} (m : M A) (f : A -> M B) w :
  exec (m ≫= f) w =
    match outcome m w with
    | inl _ => exec m w
    | inr a => exec (f a) (exec m w)
    end.
Proof.
  unfold exec, outcome, mbind, M_bind.
  destruct (m w) as [[e|a] w']; reflexivity.
Qed.

Lemma PageButton_callback_same d net w :
  same_session (exec (move_window d net) w) (exec (PageButton_callback d net) w).
Proof.
  unfold PageButton_callback. rewrite exec_bind.
  destruct (outcome _ w); [repeat split|].
  rewrite exec_bind.
  destruct (outcome update_buttons _).
  - apply update_buttons_same.
  - rewrite window_embed_same. apply update_buttons_same.
Qed.

Lemma move_window_spec d net w :
  let v := view w in
  let si := start_index v + d * 5 in
  move_window d net w =
    if 20 <=? si then turned net w (page v + 1) 0
    else if si <? 0 then
      if page v =? 1 then
        (inr tt, mkWorld (mkView (servers v) (page v) (params v) 0 (children v))
                         (dicts w) (sent w))
      else turned net w (page v - 1) 15
    else
      (inr tt, mkWorld (mkView (servers v) (page v) (params v) si (children v))
                       (dicts w) (sent w)).
Proof.
  unfold move_window, turned; msimpl.
  destruct (20 <=? _).
  - msimpl. rewrite call_fetch_servers_spec; msimpl.
    destruct (decide _); [reflexivity|].
    destruct (fetch_outcome _ _); reflexivity.
  - destruct (_ <? 0); [|reflexivity].
    msimpl. destruct (_ =? 1); [reflexivity|].
    msimpl. rewrite call_fetch_servers_spec; msimpl.
    destruct (decide _); [reflexivity|].
    destruct (fetch_outcome _ _); reflexivity.
Qed.

Lemma turned_state net w pg' si' :
  let w' := snd (turned net w pg' si') in
  page (view w') = pg' /\ start_index (view w') = si' /\
  params (view w') = params (view w).
Proof.
  unfold turned. destruct (decide _); [repeat split|].
  destruct (fetch_outcome _ _); repeat split.
Qed.

(** The page number, the offset and the parameters after a page button:
    they do not depend on what the fetch returns, nor on whether the
    callback raises. *)
Lemma PageButton_callback_state d net w :
  let v := view w in
  let si := start_index v + d * 5 in
  let w' := exec (PageButton_callback d net) w in
  params (view w') = params v /\
  page (view w') =
    (if 20 <=? si then page v + 1
     else if si <? 0 then (if page v =? 1 then page v else page v - 1)
     else page v) /\
  start_index (view w') =
    (if 20 <=? si then 0
     else if si <? 0 then (if page v =? 1 then 0 else 15)
     else si).
Proof.
  cbv zeta.
  destruct (PageButton_callback_same d net w) as (_ & Hp & Hps & Hsi & _).
  rewrite Hp, Hps, Hsi. unfold exec. rewrite move_window_spec.
  destruct (20 <=? _).
  - destruct (turned_state net w (page (view w) + 1) 0) as (? & ? & ?). auto.
  - destruct (_ <? 0); [|repeat split].
    destruct (_ =? 1); [repeat split|].
    destruct (turned_state net w (page (view w) - 1) 15) as (? & ? & ?). auto.
Qed.

(** A turn whose fetch returns [r] stores [r] and ends normally. *)
Lemma turned_fetched net w pg' si' r :
  outcome (call_fetch_servers net pg' (params (view w))) w = inr r ->
  exists ds sn,
    turned net w pg' si' =
      (inr tt, mkWorld (mkView r pg' (params (view w)) si' (children (view w))) ds sn).
Proof.
  unfold outcome. rewrite call_fetch_servers_spec. unfold turned.
  destruct (decide _); [discriminate|]. cbn [fst].
  intros ->. eauto.
Qed.

(** The requests of a turn: none when the keyword [page] collides, else
    exactly one, for the new page with the parameters of the view; the
    dictionary of the view is not written. *)
Lemma turned_requests net w pg' si' P :
  dicts w !! params (view w) = Some P ->
  let w' := snd (turned net w pg' si') in
  dicts w' !! params (view w) = Some P /\
  sent w' = (if decide (is_Some (P !! "page")) then sent w
             else sent w ++ [Request API_URL (<["page" := QInt pg']> P)]).
Proof.
  intros HP. unfold turned. rewrite HP. cbn [default].
  destruct (decide _); [split; [exact HP | reflexivity]|].
  assert (Hl : dicts w !! params (view w) = Some P ->
               <[fresh (dom (dicts w)) := <["page" := QInt pg']> P]> (dicts w)
                 !! params (view w) = Some P).
  { intros H. rewrite lookup_insert_ne; [exact H|].
    intros Heq. apply (is_fresh (dom (dicts w))). rewrite Heq.
    apply elem_of_dom. eauto. }
  destruct (fetch_outcome _ _); cbn; auto.
Qed.

(** ** Backward at the first window *)

(** C8. The Previous button on page 1 at offset 0 changes nothing: page,
    offset, loaded servers and parameters stay, and no request is sent. *)
Theorem backward_at_start_is_noop :
  forall net w,
    page (view w) = 1 -> start_index (view w) = 0 ->
    let w' := exec (PageButton_callback (-1) net) w in
    page (view w') = 1 /\ start_index (view w') = 0 /\
    servers (view w') = servers (view w) /\
    params (view w') = params (view w) /\
    dicts w' = dicts w /\ sent w' = sent w.
Proof.
  intros net w Hp Hs w'.
  destruct (PageButton_callback_same (-1) net w)
    as (Hsv & Hpg & Hps & Hsi & Hd & Hsn).
  fold w' in Hsv, Hpg, Hps, Hsi, Hd, Hsn.
  rewrite Hsv, Hpg, Hps, Hsi, Hd, Hsn.
  unfold exec. rewrite move_window_spec, Hp, Hs. cbn.
  repeat split.
Qed.

Lemma backward_at_start_is_noop_witness :
  let w := sample_session 1 0 (sample_page 20) in
  let w' := exec (PageButton_callback (-1) net_down) w in
  (page (view w) = 1 /\ start_index (view w) = 0) /\
  page (view w') = 1 /\ start_index (view w') = 0 /\
  servers (view w') = servers (view w) /\
  params (view w') = params (view w) /\
  dicts w' = dicts w /\ sent w' = sent w.
Proof.
  split; [split; reflexivity|].
  apply (backward_at_start_is_noop net_down (sample_session 1 0 (sample_page 20)));
    reflexivity.
Defined.

(** ** Forward past the last window *)

(** The world after the Next button at offset 15, when the fetch of the
    next page returns [r]. *)
Lemma turn_forward net w r :
  start_index (view w) = 15 ->
  outcome (call_fetch_servers net (page (view w) + 1) (params (view w))) w = inr r ->
  let w' := exec (PageButton_callback 1 net) w in
  page (view w') = page (view w) + 1 /\ start_index (view w') = 0 /\
  servers (view w') = r.
Proof.
  intros Hs Hr w'.
  destruct (PageButton_callback_same 1 net w) as (Hsv & Hpg & _ & Hsi & _).
  fold w' in Hsv, Hpg, Hsi. rewrite Hsv, Hpg, Hsi.
  unfold exec. rewrite move_window_spec, Hs.
  change (20 <=? 15 + 1 * 5) with true. cbv iota.
  destruct (turned_fetched net w (page (view w) + 1) 0 r Hr) as (ds & sn & ->).
  repeat split.
Qed.

(** C1, as stated, fails: from page 1 at offset 15, with a network whose
    page 2 is empty, the Next button leaves the session on page 2 at
    offset 0 with no servers loaded; the session does not stay at (1, 15). *)
Lemma forward_empty_refetch_moves_on :
  let w := sample_session 1 15 (sample_page 20) in
  let w' := exec (PageButton_callback 1 net_empty) w in
  outcome (call_fetch_servers net_empty 2 (params (view w))) w = inr (JList []) /\
  page (view w') = 2 /\ start_index (view w') = 0 /\
  servers (view w') = JList [] /\
  ~ (page (view w') = page (view w) /\ start_index (view w') = start_index (view w)).
Proof.
  vm_compute. repeat split; try reflexivity.
  intros [H _]. discriminate H.
Qed.

(** C1, amended. From offset 15, when the Next button refetches page
    [pageNumber + 1] and the fetch returns an empty page, the transition is
    committed: the stored page number is [pageNumber + 1], the stored offset
    is 0 and the loaded page is the empty one. *)
Theorem forward_empty_refetch_commits :
  forall net w,
    start_index (view w) = 15 ->
    outcome (call_fetch_servers net (page (view w) + 1) (params (view w))) w
      = inr (JList []) ->
    let w' := exec (PageButton_callback 1 net) w in
    page (view w') = page (view w) + 1 /\ start_index (view w') = 0 /\
    servers (view w') = JList [].
Proof. intros net w Hs Hr. exact (turn_forward net w (JList []) Hs Hr). Qed.

Lemma forward_empty_refetch_commits_witness :
  let w := sample_session 1 15 (sample_page 20) in
  let w' := exec (PageButton_callback 1 net_empty) w in
  (start_index (view w) = 15 /\
   outcome (call_fetch_servers net_empty (page (view w) + 1) (params (view w))) w
     = inr (JList [])) /\
  page (view w') = page (view w) + 1 /\ start_index (view w') = 0 /\
  servers (view w') = JList [].
Proof.
  split; [split; reflexivity|].
  apply (forward_empty_refetch_commits net_empty
           (sample_session 1 15 (sample_page 20))); reflexivity.
Defined.

(** ** Backward before the first window *)

(** The world after the Previous button at offset 0 on a page other than
    the first: the page number and the offset are set before the fetch,
    and one request for the previous page is sent unless the parameters
    hold a key "page". *)
Lemma turn_backward net w P :
  start_index (view w) = 0 -> page (view w) <> 1 ->
  dicts w !! params (view w) = Some P ->
  let w' := exec (PageButton_callback (-1) net) w in
  page (view w') = page (view w) - 1 /\ start_index (view w') = 15 /\
  sent w' = (if decide (is_Some (P !! "page")) then sent w
             else sent w ++ [Request API_URL (<["page" := QInt (page (view w) - 1)]> P)]) /\
  (forall r,
     outcome (call_fetch_servers net (page (view w) - 1) (params (view w))) w = inr r ->
     servers (view w') = r).
Proof.
  intros Hs Hp HP w'.
  destruct (PageButton_callback_same (-1) net w) as (Hsv & Hpg & _ & Hsi & _ & Hsn).
  fold w' in Hsv, Hpg, Hsi, Hsn. rewrite Hsv, Hpg, Hsi, Hsn.
  unfold exec. rewrite move_window_spec, Hs.
  change (20 <=? 0 + -1 * 5) with false. change (0 + -1 * 5 <? 0) with true.
  cbv iota. destruct (Z.eqb_spec (page (view w)) 1) as [|_]; [contradiction|].
  destruct (turned_state net w (page (view w) - 1) 15) as (H1 & H2 & _).
  destruct (turned_requests net w (page (view w) - 1) 15 P HP) as (_ & H3).
  repeat split; try assumption.
  intros r Hr.
  destruct (turned_fetched net w (page (view w) - 1) 15 r Hr) as (ds & sn & ->).
  reflexivity.
Qed.

(** C3, as stated, fails: from page 2 at offset 0, with a network whose
    pages hold 3 servers, the Previous button stores offset 15, not the
    clamped offset [max(0, floor((3-1)/5)*5) = 0]. *)
Lemma backward_short_page_not_clamped :
  let w := sample_session 2 0 (sample_page 20) in
  let w' := exec (PageButton_callback (-1) (net_page 3)) w in
  servers (view w') = sample_page 3 /\
  page (view w') = 1 /\ start_index (view w') = 15 /\
  start_index (view w') <> Z.max 0 ((3 - 1) / 5 * 5).
Proof. vm_compute. repeat split; try reflexivity. discriminate. Qed.

(** C3, amended. From offset 0 on a page [p > 1], the Previous button
    refetches page [p - 1] with the parameters of the session and stores
    the state [(p - 1, 15)]; the servers the fetch returns are stored as
    they are and the offset stays 15 however few they are. *)
Theorem backward_turn_to_previous_page :
  forall net w p P,
    page (view w) = p -> p > 1 -> start_index (view w) = 0 ->
    dicts w !! params (view w) = Some P -> P !! "page" = None ->
    let w' := exec (PageButton_callback (-1) net) w in
    page (view w') = p - 1 /\ start_index (view w') = 15 /\
    sent w' = sent w ++ [Request API_URL (<["page" := QInt (p - 1)]> P)] /\
    (forall r,
       outcome (call_fetch_servers net (p - 1) (params (view w))) w = inr r ->
       servers (view w') = r /\ start_index (view w') = 15).
Proof.
  intros net w p P Hp Hgt Hs HP Hnone w'. subst p.
  destruct (turn_backward net w P Hs ltac:(lia) HP) as (H1 & H2 & H3 & H4).
  fold w' in H1, H2, H3, H4.
  destruct (decide (is_Some (P !! "page"))) as [[x Hx]|_]; [congruence|].
  repeat split; auto.
Qed.

Lemma backward_turn_to_previous_page_witness :
  let w := sample_session 2 0 (sample_page 20) in
  let P : gmap string qval := {[ "software" := QStr "Paper" ]} in
  let w' := exec (PageButton_callback (-1) (net_page 3)) w in
  (page (view w) = 2 /\ 2 > 1 /\ start_index (view w) = 0 /\
   dicts w !! params (view w) = Some P /\ P !! "page" = None) /\
  page (view w') = 2 - 1 /\ start_index (view w') = 15 /\
  sent w' = sent w ++ [Request API_URL (<["page" := QInt (2 - 1)]> P)] /\
  (forall r,
     outcome (call_fetch_servers (net_page 3) (2 - 1) (params (view w))) w = inr r ->
     servers (view w') = r /\ start_index (view w') = 15).
Proof.
  split; [repeat split; try reflexivity; lia|].
  apply (backward_turn_to_previous_page (net_page 3)
           (sample_session 2 0 (sample_page 20)) 2 {[ "software" := QStr "Paper" ]});
    try reflexivity; lia.
Defined.

(** ** Moves inside the loaded page *)

(** A page button whose new offset stays in [0, 20) only moves the offset
    and redraws the buttons: nothing is fetched, and the page, the servers
    and the parameters stay. *)
Lemma move_within_page d net w :
  let si' := start_index (view w) + d * 5 in
  0 <= si' < 20 ->
  let w' := exec (PageButton_callback d net) w in
  start_index (view w') = si' /\
  page (view w') = page (view w) /\
  servers (view w') = servers (view w) /\
  params (view w') = params (view w) /\
  dicts w' = dicts w /\ sent w' = sent w /\
  (forall l, servers (view w) = JList l ->
     children (view w') = window_buttons si' (slice l si' (si' + 5))).
Proof.
  intros si' Hsi w'.
  assert (Hmove : move_window d net w =
            (inr tt, mkWorld (mkView (servers (view w)) (page (view w))
                                     (params (view w)) si' (children (view w)))
                             (dicts w) (sent w))).
  { rewrite move_window_spec. fold si'.
    destruct (Z.leb_spec 20 si'); [lia|].
    destruct (Z.ltb_spec si' 0); [lia|]. reflexivity. }
  destruct (PageButton_callback_same d net w) as (Hsv & Hpg & Hps & Hs & Hd & Hsn).
  fold w' in Hsv, Hpg, Hps, Hs, Hd, Hsn.
  unfold exec in Hsv, Hpg, Hps, Hs, Hd, Hsn. rewrite Hmove in *. cbn in *.
  repeat split; try assumption.
  intros l Hl. subst w'.
  unfold PageButton_callback, update_buttons, window_embed; msimpl.
  rewrite Hmove; msimpl. rewrite Hl. cbn [py_slice].
  rewrite (Z.mod_small si' 20) by lia. msimpl. cbn [py_slice].
  destruct (server_fields _ _); reflexivity.
Qed.

(** The result of a fetch depends on the world through the dictionaries
    only. *)
Lemma call_fetch_servers_outcome_dicts net pg l w1 w2 :
  dicts w1 = dicts w2 ->
  outcome (call_fetch_servers net pg l) w1 = outcome (call_fetch_servers net pg l) w2.
Proof.
  intros H. unfold outcome. rewrite !call_fetch_servers_spec, H.
  destruct (decide _); reflexivity.
Qed.

Lemma slice_length {A} (l : list A) (start : Z) :
  0 <= start -> start + 5 <= Z.of_nat (List.length l) ->
  List.length (slice l start (start + 5)) = 5%nat.
Proof.
  intros H0 H1. unfold slice. rewrite length_take, length_drop. lia.
Qed.

Lemma window_buttons_length si window :
  List.length (window_buttons si window) = (List.length window + 2)%nat.
Proof. unfold window_buttons. rewrite length_app, length_imap. reflexivity. Qed.

Lemma turn_forward_sent net w P :
  start_index (view w) = 15 ->
  dicts w !! params (view w) = Some P ->
  let w' := exec (PageButton_callback 1 net) w in
  sent w' = (if decide (is_Some (P !! "page")) then sent w
             else sent w ++ [Request API_URL (<["page" := QInt (page (view w) + 1)]> P)]).
Proof.
  intros Hs HP w'.
  destruct (PageButton_callback_same 1 net w) as (_ & _ & _ & _ & _ & Hsn).
  fold w' in Hsn. rewrite Hsn.
  unfold exec. rewrite move_window_spec, Hs.
  change (20 <=? 15 + 1 * 5) with true. cbv iota.
  apply (turned_requests net w (page (view w) + 1) 0 P HP).
Qed.

(** ** Four steps forward *)

(** C6. From page [p] at offset 0 with 20 servers loaded, three Next
    buttons move the offset to 5, 10 and 15, each showing five servers and
    sending no request; the fourth sends exactly one request, for page
    [p + 1] with the parameters of the session, and when that fetch returns
    a non-empty page the session is at [(p + 1, 0)] with that page loaded. *)
Theorem four_forwards_one_refetch :
  forall net1 net2 net3 net4 w p P l r0 r,
    page (view w) = p -> start_index (view w) = 0 ->
    servers (view w) = JList l -> List.length l = 20%nat ->
    dicts w !! params (view w) = Some P -> P !! "page" = None ->
    outcome (call_fetch_servers net4 (p + 1) (params (view w))) w
      = inr (JList (r0 :: r)) ->
    let w1 := exec (PageButton_callback 1 net1) w in
    let w2 := exec (PageButton_callback 1 net2) w1 in
    let w3 := exec (PageButton_callback 1 net3) w2 in
    let w4 := exec (PageButton_callback 1 net4) w3 in
    (page (view w1) = p /\ start_index (view w1) = 5 /\ sent w1 = sent w /\
     List.length (children (view w1)) = 7%nat) /\
    (page (view w2) = p /\ start_index (view w2) = 10 /\ sent w2 = sent w /\
     List.length (children (view w2)) = 7%nat) /\
    (page (view w3) = p /\ start_index (view w3) = 15 /\ sent w3 = sent w /\
     List.length (children (view w3)) = 7%nat) /\
    (page (view w4) = p + 1 /\ start_index (view w4) = 0 /\
     servers (view w4) = JList (r0 :: r) /\
     sent w4 = sent w ++ [Request API_URL (<["page" := QInt (p + 1)]> P)]).
Proof.
  intros net1 net2 net3 net4 w p P l r0 r Hp Hs Hl Hlen HP Hnone Hr w1 w2 w3 w4.
  destruct (move_within_page 1 net1 w) as (Hs1 & Hp1 & Hv1 & Hps1 & Hd1 & Hsn1 & Hc1);
    [lia|]. fold w1 in Hs1, Hp1, Hv1, Hps1, Hd1, Hsn1, Hc1.
  destruct (move_within_page 1 net2 w1) as (Hs2 & Hp2 & Hv2 & Hps2 & Hd2 & Hsn2 & Hc2);
    [lia|]. fold w2 in Hs2, Hp2, Hv2, Hps2, Hd2, Hsn2, Hc2.
  destruct (move_within_page 1 net3 w2) as (Hs3 & Hp3 & Hv3 & Hps3 & Hd3 & Hsn3 & Hc3);
    [lia|]. fold w3 in Hs3, Hp3, Hv3, Hps3, Hd3, Hsn3, Hc3.
  assert (Hbtn : forall si, 0 <= si <= 15 ->
            List.length (window_buttons si (slice l si (si + 5))) = 7%nat).
  { intros si Hsi. rewrite window_buttons_length, slice_length by lia. reflexivity. }
  assert (E3 : start_index (view w3) = 15) by lia.
  assert (Epg : page (view w3) = p) by congruence.
  assert (Eps : params (view w3) = params (view w)) by congruence.
  assert (Eds : dicts w3 = dicts w) by congruence.
  assert (Hr3 : outcome (call_fetch_servers net4 (page (view w3) + 1)
                           (params (view w3))) w3 = inr (JList (r0 :: r))).
  { rewrite Epg, Eps, <- Hr. apply call_fetch_servers_outcome_dicts, Eds. }
  destruct (turn_forward net4 w3 (JList (r0 :: r)) E3 Hr3) as (Hp4 & Hs4 & Hv4).
  fold w4 in Hp4, Hs4, Hv4.
  assert (HP3 : dicts w3 !! params (view w3) = Some P)
    by (rewrite Eds, Eps; exact HP).
  pose proof (turn_forward_sent net4 w3 P E3 HP3) as Hsn4. fold w4 in Hsn4.
  destruct (decide (is_Some (P !! "page"))) as [[x Hx]|_]; [congruence|].
  repeat split; try lia; try congruence.
  - rewrite (Hc1 l Hl). apply Hbtn. lia.
  - rewrite (Hc2 l) by congruence. apply Hbtn. lia.
  - rewrite (Hc3 l) by congruence. apply Hbtn. lia.
Qed.

Lemma four_forwards_one_refetch_witness :
  let w := sample_session 1 0 (sample_page 20) in
  let P : gmap string qval := {[ "software" := QStr "Paper" ]} in
  let net := net_page 20 in
  let w1 := exec (PageButton_callback 1 net) w in
  let w2 := exec (PageButton_callback 1 net) w1 in
  let w3 := exec (PageButton_callback 1 net) w2 in
  let w4 := exec (PageButton_callback 1 net) w3 in
  (page (view w1) = 1 /\ start_index (view w1) = 5 /\ sent w1 = sent w /\
   List.length (children (view w1)) = 7%nat) /\
  (page (view w2) = 1 /\ start_index (view w2) = 10 /\ sent w2 = sent w /\
   List.length (children (view w2)) = 7%nat) /\
  (page (view w3) = 1 /\ start_index (view w3) = 15 /\ sent w3 = sent w /\
   List.length (children (view w3)) = 7%nat) /\
  (page (view w4) = 1 + 1 /\ start_index (view w4) = 0 /\
   servers (view w4) = sample_page 20 /\
   sent w4 = sent w ++ [Request API_URL (<["page" := QInt (1 + 1)]> P)]).
Proof.
  exact (four_forwards_one_refetch (net_page 20) (net_page 20) (net_page 20)
           (net_page 20) (sample_session 1 0 (sample_page 20)) 1
           {[ "software" := QStr "Paper" ]}
           (map (fun i => sample_server (Z.of_nat i)) (seq 0 20))
           (sample_server 0)
           (map (fun i => sample_server (Z.of_nat i)) (seq 1 19))
           eq_refl eq_refl eq_refl eq_refl eq_refl eq_refl eq_refl).
Defined.

(** ** Forward, then backward *)

Lemma forward_backward_state net1 net2 w :
  page (view w) >= 1 ->
  0 <= start_index (view w) <= 15 ->
  let w1 := exec (PageButton_callback 1 net1) w in
  let w2 := exec (PageButton_callback (-1) net2) w1 in
  page (view w2) = page (view w) /\ start_index (view w2) = start_index (view w).
Proof.
  intros Hp Ho w1 w2.
  destruct (PageButton_callback_state 1 net1 w) as (_ & Hp1 & Hs1).
  destruct (PageButton_callback_state (-1) net2 w1) as (_ & Hp2 & Hs2).
  fold w1 in Hp1, Hs1, Hp2, Hs2. fold w2 in Hp2, Hs2.
  rewrite Hp2, Hs2, Hp1, Hs1. clear Hp2 Hs2 Hp1 Hs1.
  destruct (Z.leb_spec 20 (start_index (view w) + 1 * 5)).
  - change (20 <=? 0 + -1 * 5) with false. change (0 + -1 * 5 <? 0) with true.
    cbv iota.
    destruct (Z.eqb_spec (page (view w) + 1) 1); lia.
  - destruct (Z.ltb_spec (start_index (view w) + 1 * 5) 0); [lia|].
    destruct (Z.leb_spec 20 (start_index (view w) + 1 * 5 + -1 * 5)); [lia|].
    destruct (Z.ltb_spec (start_index (view w) + 1 * 5 + -1 * 5) 0); lia.
Qed.

(** C7. For every page [p >= 1] and offset [o] in {0, 5, 10, 15}, the Next
    button followed by the Previous button, both returning without an
    exception, brings the session back to [(p, o)]. *)
Theorem forward_then_backward_returns :
  forall net1 net2 w p o,
    p >= 1 -> (o = 0 \/ o = 5 \/ o = 10 \/ o = 15) ->
    page (view w) = p -> start_index (view w) = o ->
    let w1 := exec (PageButton_callback 1 net1) w in
    let w2 := exec (PageButton_callback (-1) net2) w1 in
    (exists embed1, outcome (PageButton_callback 1 net1) w = inr embed1) ->
    (exists embed2, outcome (PageButton_callback (-1) net2) w1 = inr embed2) ->
    page (view w2) = p /\ start_index (view w2) = o.
Proof.
  intros net1 net2 w p o Hp Ho Hpg Hsi w1 w2 _ _. subst p o.
  apply forward_backward_state; lia.
Qed.

Lemma forward_then_backward_returns_witness :
  let w := sample_session 3 15 (sample_page 20) in
  let w1 := exec (PageButton_callback 1 (net_page 20)) w in
  let w2 := exec (PageButton_callback (-1) (net_page 20)) w1 in
  page (view w1) = 4 /\ start_index (view w1) = 0 /\
  page (view w2) = 3 /\ start_index (view w2) = 15.
Proof.
  split; [reflexivity|]. split; [reflexivity|].
  apply (forward_then_backward_returns (net_page 20) (net_page 20)
           (sample_session 3 15 (sample_page 20)) 3 15).
  - lia.
  - right; right; right; reflexivity.
  - reflexivity.
  - reflexivity.
  - eexists. vm_compute. reflexivity.
  - eexists. vm_compute. reflexivity.
Defined.

(** ** The offset along a session *)

Lemma navigate_offset ev w :
  let si := start_index (view w) in
  let si' := start_index (view (exec (navigate ev) w)) in
  (si = 0 \/ si = 5 \/ si = 10 \/ si = 15) ->
  (si' = 0 \/ si' = 5 \/ si' = 10 \/ si' = 15).
Proof.
  destruct ev as [d net]. cbv zeta. unfold navigate. cbn [fst snd].
  destruct (PageButton_callback_state (direction_value d) net w) as (_ & _ & ->).
  intros Hsi.
  destruct (Z.leb_spec 20 (start_index (view w) + direction_value d * 5));
    [lia|].
  destruct (Z.ltb_spec (start_index (view w) + direction_value d * 5) 0).
  - destruct (page (view w) =? 1); lia.
  - destruct d; cbn [direction_value] in *; lia.
Qed.

Lemma trace_offsets evs :
  forall w,
    (let si := start_index (view w) in si = 0 \/ si = 5 \/ si = 10 \/ si = 15) ->
    Forall (fun w' => let si := start_index (view w') in
                      si = 0 \/ si = 5 \/ si = 10 \/ si = 15)
           (trace evs w).
Proof.
  induction evs as [|ev evs IH]; intros w Hw; cbn [trace].
  - constructor.
  - pose proof (navigate_offset ev w Hw) as Hw'.
    constructor; [exact Hw' | apply IH, Hw'].
Qed.

(** C4. From a session whose offset is a multiple of 5 between 0 and 15,
    after every click of every sequence of Previous and Next clicks, with
    whatever the network answers, the stored offset is a multiple of 5, at
    least 0 and less than 20. *)
Theorem offset_invariant :
  forall evs w,
    (5 | start_index (view w)) -> 0 <= start_index (view w) <= 15 ->
    Forall (fun w' => (5 | start_index (view w')) /\
                      0 <= start_index (view w') < 20)
           (trace evs w).
Proof.
  intros evs w [k Hk] Hr.
  eapply Forall_impl; [apply trace_offsets; cbv zeta; lia|].
  intros w' Hw'. cbv beta zeta in Hw' |- *. split; [|lia].
  destruct Hw' as [-> | [-> | [-> | ->]]];
    [exists 0 | exists 1 | exists 2 | exists 3]; reflexivity.
Qed.

Lemma offset_invariant_witness :
  let w := sample_session 1 0 (sample_page 20) in
  let evs := [(Next, net_page 20); (Next, net_down); (Previous, net_garbled);
              (Previous, net_page 3); (Previous, net_empty)] in
  ((5 | start_index (view w)) /\ 0 <= start_index (view w) <= 15) /\
  Forall (fun w' => (5 | start_index (view w')) /\
                    0 <= start_index (view w') < 20)
         (trace evs w).
Proof.
  assert (H5 : (5 | start_index (view (sample_session 1 0 (sample_page 20)))))
    by (exists 0; reflexivity).
  assert (Hr : 0 <= start_index (view (sample_session 1 0 (sample_page 20))) <= 15)
    by (cbn; lia).
  split; [split; assumption|].
  apply (offset_invariant _ (sample_session 1 0 (sample_page 20)) H5 Hr).
Defined.

(** ** The parameters of the session *)

(** One page button: the view keeps its dictionary, the dictionary keeps
    its content, and at most one request is sent, whose query is that
    content with the key "page" set to the page number now stored. *)
Lemma PageButton_callback_requests d net w P :
  dicts w !! params (view w) = Some P ->
  let w' := exec (PageButton_callback d net) w in
  params (view w') = params (view w) /\
  dicts w' !! params (view w) = Some P /\
  (sent w' = sent w \/
   sent w' = sent w ++ [Request API_URL (<["page" := QInt (page (view w'))]> P)]).
Proof.
  intros HP w'.
  destruct (PageButton_callback_same d net w) as (_ & Hpg & Hps & _ & Hd & Hsn).
  fold w' in Hpg, Hps, Hd, Hsn. rewrite Hpg, Hps, Hd, Hsn.
  unfold exec. rewrite move_window_spec. cbv zeta.
  assert (Hturn : forall pg' si',
            let t := snd (turned net w pg' si') in
            params (view t) = params (view w) /\
            dicts t !! params (view w) = Some P /\
            (sent t = sent w \/
             sent t = sent w ++ [Request API_URL (<["page" := QInt (page (view t))]> P)])).
  { intros pg' si' t.
    destruct (turned_state net w pg' si') as (H1 & _ & H3).
    destruct (turned_requests net w pg' si' P HP) as (H4 & H5).
    fold t in H1, H3, H4, H5. rewrite H1.
    repeat split; try assumption.
    destruct (decide _); [left | right]; exact H5. }
  destruct (20 <=? _); [apply Hturn|].
  destruct (_ <? 0); [|cbn; auto].
  destruct (_ =? 1); [cbn; auto | apply Hturn].
Qed.

Lemma run_requests evs :
  forall w P,
    dicts w !! params (view w) = Some P ->
    let w' := run evs w in
    params (view w') = params (view w) /\
    dicts w' !! params (view w) = Some P /\
    exists pages, sent w' = sent w ++ map (page_request P) pages.
Proof.
  induction evs as [|[d net] evs IH]; intros w P HP; cbn [run].
  - repeat split; [exact HP|]. exists []. cbn. symmetry. apply app_nil_r.
  - destruct (PageButton_callback_requests (direction_value d) net w P HP)
      as (Hps & Hd & Hsn).
    unfold navigate; cbn [fst snd].
    set (w1 := exec (PageButton_callback (direction_value d) net) w) in *.
    rewrite <- Hps in Hd.
    destruct (IH w1 P Hd) as (Hps' & Hd' & pages & Hsn').
    cbv zeta. rewrite Hps', Hsn'. rewrite Hps in Hd' |- *.
    repeat split; [exact Hd'|].
    destruct Hsn as [-> | ->].
    + exists pages. reflexivity.
    + exists (page (view w1) :: pages). rewrite <- app_assoc. reflexivity.
Qed.

(** C9. Along every sequence of clicks the view keeps the dictionary it
    was created with and its content never changes; every request of the
    session carries exactly that content plus a page number, and the
    request of a click carries the page number the click stored. *)
Theorem params_pass_through_unchanged :
  forall evs d net w P,
    dicts w !! params (view w) = Some P ->
    let w1 := run evs w in
    let w2 := exec (navigate (d, net)) w1 in
    params (view w2) = params (view w) /\
    dicts w2 !! params (view w) = Some P /\
    (exists pages, sent w1 = sent w ++ map (page_request P) pages) /\
    (sent w2 = sent w1 \/
     sent w2 = sent w1 ++ [page_request P (page (view w2))]).
Proof.
  intros evs d net w P HP w1 w2.
  destruct (run_requests evs w P HP) as (Hps & Hd & Hsn). fold w1 in Hps, Hd, Hsn.
  rewrite <- Hps in Hd.
  destruct (PageButton_callback_requests (direction_value d) net w1 P Hd)
    as (Hps2 & Hd2 & Hsn2).
  unfold navigate in w2. cbn [fst snd] in w2. fold w2 in Hps2, Hd2, Hsn2.
  rewrite Hps in Hps2, Hd2.
  repeat split; assumption.
Qed.

Lemma params_pass_through_unchanged_witness :
  let w := sample_session 1 10 (sample_page 20) in
  let P : gmap string qval := {[ "software" := QStr "Paper" ]} in
  let w1 := run [(Next, net_page 20); (Next, net_page 7)] w in
  let w2 := exec (navigate (Previous, net_page 20)) w1 in
  dicts w !! params (view w) = Some P /\
  params (view w2) = params (view w) /\
  dicts w2 !! params (view w) = Some P /\
  (exists pages, sent w1 = sent w ++ map (page_request P) pages) /\
  (sent w2 = sent w1 \/
   sent w2 = sent w1 ++ [page_request P (page (view w2))]).
Proof.
  split; [reflexivity|].
  apply (params_pass_through_unchanged
           [(Next, net_page 20); (Next, net_page 7)] Previous (net_page 20)
           (sample_session 1 10 (sample_page 20))
           {[ "software" := QStr "Paper" ]}).
  reflexivity.
Defined.

(** ** The session that /server creates *)

Lemma set_filter_run l k x w :
  k <> "page" -> has_filters w l ->
  exists w', set_filter l k x w = (inr tt, w') /\ has_filters w' l /\ view w' = view w.
Proof.
  intros Hk (P & HP & Hn). destruct x as [v|]; cbn.
  - eexists; split; [reflexivity|]. split; [|reflexivity].
    exists (<[k := v]> P). cbn. rewrite lookup_insert_eq, HP. cbn.
    split; [reflexivity|]. rewrite lookup_insert_ne by congruence. exact Hn.
  - exists w. repeat split. exists P. auto.
Qed.

Lemma bind_run {A B} (m : M A) (f : A -> M B) w a w' :
  m w = (inr a, w') -> (m ≫= f) w = f a w'.
Proof. intros H. unfold mbind, M_bind. rewrite H. reflexivity. Qed.

Lemma has_filters_alloc w w' l d :
  dicts w' = <[fresh (dom (dicts w)) := d]> (dicts w) ->
  has_filters w l -> has_filters w' l.
Proof.
  intros Hd (P & HP & Hn). exists P. split; [|exact Hn]. rewrite Hd.
  rewrite lookup_insert_ne; [exact HP|].
  intros Heq. apply (is_fresh (dom (dicts w))). rewrite Heq.
  apply elem_of_dom. eauto.
Qed.

Lemma ServerInfoButtons_init_session svs pg l w :
  has_filters w l ->
  let w' := exec (ServerInfoButtons_init svs pg (Some l)) w in
  servers (view w') = svs /\ page (view w') = pg /\ start_index (view w') = 0 /\
  has_filters w' (params (view w')).
Proof.
  intros Hl w'. subst w'. unfold ServerInfoButtons_init, exec.
  assert (Hfst : exists l' w1,
            (d ← read_dict l; if decide (d = ∅) then alloc_dict ∅ else mret l) w
              = (inr l', w1) /\ has_filters w1 l').
  { msimpl. destruct (decide _).
    - eexists _, _. split; [reflexivity|]. exists ∅. cbn.
      rewrite lookup_insert_eq. split; [reflexivity | apply lookup_empty].
    - eexists _, _. split; [reflexivity | exact Hl]. }
  destruct Hfst as (l' & w1 & E & H1).
  rewrite (bind_run _ _ _ _ _ E).
  rewrite (bind_run _ _ w1 tt (mkWorld (mkView svs pg l' 0 []) (dicts w1) (sent w1)))
    by reflexivity.
  destruct (update_buttons_same
              (mkWorld (mkView svs pg l' 0 []) (dicts w1) (sent w1)))
    as (Hsv & Hpg & Hps & Hsi & Hd & _).
  unfold exec in Hsv, Hpg, Hps, Hsi, Hd. cbn in Hsv, Hpg, Hps, Hsi, Hd.
  rewrite Hsv, Hpg, Hps, Hsi. repeat split.
  destruct H1 as (P & HP & Hn). exists P. rewrite Hd. auto.
Qed.

Lemma bind_raise {A B} (m : M A) (f : A -> M B) w e w' :
  m w = (inl e, w') -> (m ≫= f) w = (inl e, w').
Proof. intros H. unfold mbind, M_bind. rewrite H. reflexivity. Qed.

Lemma server_cmd_session net pg sw co ve so au mp w fs :
  outcome (server_cmd net pg sw co ve so au mp) w = inr (Some fs) ->
  let w' := exec (server_cmd net pg sw co ve so au mp) w in
  page (view w') = pg /\ start_index (view w') = 0 /\ has_filters w' (params (view w')).
Proof.
  intros Hout w'. subst w'. unfold server_cmd, outcome, exec in *.
  set (l := fresh (dom (dicts w))) in *.
  rewrite (bind_run _ _ w l (mkWorld (view w) (<[l := ∅]> (dicts w)) (sent w)))
    in Hout |- * by reflexivity.
  assert (H0 : has_filters (mkWorld (view w) (<[l := ∅]> (dicts w)) (sent w)) l).
  { exists ∅. cbn. rewrite lookup_insert_eq. split; [reflexivity | apply lookup_empty]. }
  destruct (set_filter_run l "software" (given sw) _ ltac:(discriminate) H0)
    as (w1 & E1 & H1 & _).
  rewrite (bind_run _ _ _ _ _ E1) in Hout |- *.
  destruct (set_filter_run l "version" (given ve) _ ltac:(discriminate) H1)
    as (w2 & E2 & H2 & _).
  rewrite (bind_run _ _ _ _ _ E2) in Hout |- *.
  destruct (set_filter_run l "sort" (QStr <$> so) _ ltac:(discriminate) H2)
    as (w3 & E3 & H3 & _).
  rewrite (bind_run _ _ _ _ _ E3) in Hout |- *.
  destruct (set_filter_run l "authmode" (QStr <$> au) _ ltac:(discriminate) H3)
    as (w4 & E4 & H4 & _).
  rewrite (bind_run _ _ _ _ _ E4) in Hout |- *.
  destruct (set_filter_run l "minPlayers" (QInt <$> mp) _ ltac:(discriminate) H4)
    as (w5 & E5 & H5 & _).
  rewrite (bind_run _ _ _ _ _ E5) in Hout |- *.
  destruct (set_filter_run l "country" (given co) _ ltac:(discriminate) H5)
    as (w6 & E6 & H6 & _).
  rewrite (bind_run _ _ _ _ _ E6) in Hout |- *.
  clear E1 E2 E3 E4 E5 E6 H0 H1 H2 H3 H4 H5.
  pose proof (call_fetch_servers_spec net pg l w6) as Hfetch. cbv zeta in Hfetch.
  destruct (decide _) as [[x Hx]|_] in Hfetch.
  { destruct H6 as (P & HP & Hn). rewrite HP in Hx. cbn in Hx. congruence. }
  set (w7 := mkWorld (view w6) _ _) in Hfetch.
  assert (H7 : has_filters w7 l) by (eapply has_filters_alloc; [reflexivity | exact H6]).
  clearbody w7. clear H6.
  destruct (fetch_outcome _ _) as [e|svs].
  { rewrite (bind_raise _ _ _ _ _ Hfetch) in Hout. discriminate Hout. }
  rewrite (bind_run _ _ _ _ _ Hfetch) in Hout |- *.
  destruct (truthy svs); cbn [negb] in Hout |- *; [|discriminate Hout].
  clear Hout.
  pose proof (ServerInfoButtons_init_session svs pg l w7 H7) as H8.
  cbv zeta in H8.
  match goal with
  | |- context [snd (?m w7)] => change (snd (m w7)) with (exec m w7)
  end.
  rewrite exec_bind.
  destruct (outcome _ w7); [exact (proj2 H8)|].
  assert (Hrest : forall w0, exec (lift (py_slice svs 0 5)
              ≫= λ window : list json,
                   lift (server_fields 1 window)
                   ≫= λ fs0 : list field, mret (Some fs0)) w0 = w0).
  { intros w0. msimpl. destruct (py_slice _ _ _); [reflexivity|].
    destruct (server_fields _ _); reflexivity. }
  rewrite Hrest. exact (proj2 H8).
Qed.

(** * Further properties *)

(** ** The fetchers *)

(** X1. A response whose status is not 200 makes [fetch_servers] return the
    empty list without reading the body; the call has written the key
    "page" into its keyword dictionary and sent exactly one request. *)
Theorem fetch_servers_status_not_200 :
  forall net pg l w r,
    let q := <["page" := QInt pg]> (default ∅ (dicts w !! l)) in
    net (Request API_URL q) = Some r ->
    status_code r <> 200 ->
    fetch_servers net pg l w =
      (inr (JList []),
       mkWorld (view w) (<[l := q]> (dicts w)) (sent w ++ [Request API_URL q])).
Proof.
  intros net pg l w r q Hr Hs. rewrite fetch_servers_spec. fold q.
  unfold fetch_outcome. rewrite Hr.
  destruct (Z.eqb_spec (status_code r) 200); [contradiction | reflexivity].
Qed.

Lemma fetch_servers_status_not_200_witness :
  fetch_servers (net_status 503 None) 4 0%nat (sample_session 4 0 (sample_page 20)) =
    (inr (JList []),
     mkWorld (view (sample_session 4 0 (sample_page 20)))
             (<[0%nat := <["page" := QInt 4]> {[ "software" := QStr "Paper" ]}]>
                (dicts (sample_session 4 0 (sample_page 20))))
             [Request API_URL (<["page" := QInt 4]> {[ "software" := QStr "Paper" ]})]).
Proof.
  apply (fetch_servers_status_not_200 (net_status 503 None) 4 0%nat
           (sample_session 4 0 (sample_page 20)) (Response 503 None)).
  - reflexivity.
  - cbn. lia.
Defined.

(** X2. On a 200 response whose body is a JSON object, [fetch_servers]
    returns the value under "servers" as it is, and the empty list when the
    object has no such key. *)
Theorem fetch_servers_object_body :
  forall net pg l w d,
    net (Request API_URL (<["page" := QInt pg]> (default ∅ (dicts w !! l))))
      = Some (Response 200 (Some (JDict d))) ->
    outcome (fetch_servers net pg l) w = inr (default (JList []) (dict_get d "servers")).
Proof.
  intros net pg l w d Hr. unfold outcome. rewrite fetch_servers_spec. cbn [fst].
  unfold fetch_outcome. rewrite Hr. reflexivity.
Qed.

Lemma fetch_servers_object_body_witness :
  outcome (fetch_servers (net_status 200 (Some (JDict [("total", JNum 7)]))) 1 0%nat)
          (sample_session 1 0 (sample_page 20)) = inr (JList []).
Proof.
  apply (fetch_servers_object_body _ 1 0%nat (sample_session 1 0 (sample_page 20))
           [("total", JNum 7)]).
  reflexivity.
Defined.

(** X3. A call [fetch_servers(page=..., **d)] whose dictionary [d] already
    has a key "page" raises [TypeError] before anything happens: no request
    is sent and the world is unchanged. *)
Theorem call_fetch_servers_page_collision :
  forall net pg l w P x,
    dicts w !! l = Some P -> P !! "page" = Some x ->
    call_fetch_servers net pg l w = (inl TypeError, w).
Proof.
  intros net pg l w P x HP Hx. rewrite call_fetch_servers_spec. rewrite HP.
  cbn [default from_option id].
  destruct (decide _) as [_|Hn]; [reflexivity|].
  exfalso. apply Hn. rewrite Hx. eauto.
Qed.

Lemma call_fetch_servers_page_collision_witness :
  let w := mkWorld (view (sample_session 1 0 (sample_page 20)))
                   {[ 0%nat := {[ "page" := QInt 9 ]} ]} [] in
  call_fetch_servers (net_page 20) 2 0%nat w = (inl TypeError, w).
Proof.
  apply (call_fetch_servers_page_collision (net_page 20) 2 0%nat
           (mkWorld (view (sample_session 1 0 (sample_page 20)))
                    {[ 0%nat := {[ "page" := QInt 9 ]} ]} [])
           {[ "page" := QInt 9 ]} (QInt 9)); reflexivity.
Defined.

(** X4. A call [fetch_servers(page=..., **d)] leaves the view and every
    dictionary that exists before the call as they are: the key "page" is
    written into a new dictionary only. *)
Theorem call_fetch_servers_frame :
  forall net pg l w l',
    is_Some (dicts w !! l') ->
    let w' := exec (call_fetch_servers net pg l) w in
    view w' = view w /\ dicts w' !! l' = dicts w !! l'.
Proof.
  intros net pg l w l' Hl'. unfold exec. rewrite call_fetch_servers_spec.
  destruct (decide _); cbn; [auto|]. split; [reflexivity|].
  apply lookup_insert_ne. intros Heq.
  apply (is_fresh (dom (dicts w))). rewrite Heq. apply elem_of_dom, Hl'.
Qed.

Lemma call_fetch_servers_frame_witness :
  let w := sample_session 1 0 (sample_page 20) in
  let w' := exec (call_fetch_servers (net_page 20) 2 0%nat) w in
  view w' = view w /\ dicts w' !! 0%nat = dicts w !! 0%nat.
Proof.
  apply (call_fetch_servers_frame (net_page 20) 2 0%nat
           (sample_session 1 0 (sample_page 20)) 0%nat).
  vm_compute. eauto.
Defined.

(** X5. [fetch_random_servers] never raises: it sends one request to
    [/servers/random] without parameters and returns the value under
    "servers" of a 200 response whose body is an object, and the empty list
    in every other case. *)
Theorem fetch_random_servers_never_raises :
  forall net w,
    let req := Request (String.append API_URL "/random") ∅ in
    fetch_random_servers net w =
      (inr match net req with
           | Some (Response 200 (Some (JDict d))) =>
               default (JList []) (dict_get d "servers")
           | _ => JList []
           end,
       mkWorld (view w) (dicts w) (sent w ++ [req])).
Proof.
  intros net w req. unfold fetch_random_servers, try_except, response_json.
  msimpl. fold req.
  destruct (net req) as [[code [data|]]|]; try reflexivity.
  - cbn [status_code body].
    destruct (Z.eqb_spec code 200) as [->|Hc].
    + destruct data; reflexivity.
    + destruct code as [|p|p]; try reflexivity.
      do 8 (destruct p as [p|p|]; try reflexivity); congruence.
  - cbn [status_code body].
    destruct (Z.eqb_spec code 200) as [->|Hc]; [reflexivity|].
    destruct code as [|p|p]; try reflexivity.
    do 8 (destruct p as [p|p|]; try reflexivity); congruence.
Qed.

(** X6. [fetch_total_servers] never raises: it sends one request to
    [/servers] without parameters and returns the value under "total" of a
    200 response whose body is an object, and 0 in every other case. *)
Theorem fetch_total_servers_never_raises :
  forall net w,
    let req := Request API_URL ∅ in
    fetch_total_servers net w =
      (inr match net req with
           | Some (Response 200 (Some (JDict d))) =>
               default (JNum 0) (dict_get d "total")
           | _ => JNum 0
           end,
       mkWorld (view w) (dicts w) (sent w ++ [req])).
Proof.
  intros net w req. unfold fetch_total_servers, try_except, response_json.
  msimpl. fold req.
  destruct (net req) as [[code [data|]]|]; try reflexivity.
  - cbn [status_code body].
    destruct (Z.eqb_spec code 200) as [->|Hc].
    + destruct data; reflexivity.
    + destruct code as [|p|p]; try reflexivity.
      do 8 (destruct p as [p|p|]; try reflexivity); congruence.
  - cbn [status_code body].
    destruct (Z.eqb_spec code 200) as [->|Hc]; [reflexivity|].
    destruct code as [|p|p]; try reflexivity.
    do 8 (destruct p as [p|p|]; try reflexivity); congruence.
Qed.

(** ** fetch_whereis and /whereis *)

Lemma name_matches_true identifier p :
  name_matches identifier p = inr true -> named_like identifier p.
Proof.
  unfold name_matches. destruct p as [| | | |l|d]; try discriminate.
  cbn [py_get mbind result_bind].
  destruct (default (JStr "") (dict_get d "name")) as [| | |s| |] eqn:E;
    try discriminate.
  cbn [py_lower mbind result_bind mret result_ret]. intros H.
  exists d, s. repeat split; [exact E|].
  apply String.eqb_eq. injection H as H. exact H.
Qed.

Lemma first_match_sound identifier ps v :
  first_match identifier ps = inr v -> v = JNull \/ named_like identifier v.
Proof.
  induction ps as [|p ps IH]; cbn [first_match].
  - intros H. left. congruence.
  - destruct (name_matches identifier p) as [e|[|]] eqn:E;
      cbn [mbind result_bind]; try discriminate.
    + intros H. right. replace v with p by congruence.
      apply name_matches_true, E.
    + exact IH.
Qed.

Lemma whereis_pick_sound identifier data v :
  whereis_pick identifier data = inr v -> v = JNull \/ named_like identifier v.
Proof.
  unfold whereis_pick.
  destruct (py_contains "players" data) as [e|has]; [discriminate|].
  cbn [mbind result_bind].
  assert (Hloop : (players ← py_get data "players" (JList []);
                   ps ← py_iter (py_or players (JList []));
                   first_match identifier ps) = inr v ->
                  v = JNull \/ named_like identifier v).
  { destruct (py_get data "players" (JList [])) as [e|players]; [discriminate|].
    cbn [mbind result_bind].
    destruct (py_iter _) as [e|ps]; [discriminate|].
    cbn [mbind result_bind]. apply first_match_sound. }
  destruct has; cbn [negb].
  - cbn [mbind result_bind mret result_ret]. exact Hloop.
  - destruct (name_matches identifier data) as [e|[|]] eqn:E;
      cbn [mbind result_bind]; try discriminate.
    + intros H. cbv [mret result_ret] in H. injection H as <-. right.
      apply name_matches_true, E.
    + exact Hloop.
Qed.

(** X7. Whatever [fetch_whereis] returns without raising is [None] or a
    record whose "name" equals the identifier asked for, up to case. *)
Theorem fetch_whereis_returns_the_player :
  forall net identifier w v,
    outcome (fetch_whereis net identifier) w = inr v ->
    v = JNull \/
    exists d s, v = JDict d /\ default (JStr "") (dict_get d "name") = JStr s /\
                lower s = lower identifier.
Proof.
  intros net identifier w v. unfold fetch_whereis, response_json, outcome. msimpl.
  destruct (net _) as [r|]; [|discriminate].
  destruct (negb _); [cbn; intros H; left; congruence|].
  destruct (body r) as [data|]; [|discriminate].
  cbn [fst]. apply whereis_pick_sound.
Qed.

Lemma fetch_whereis_returns_the_player_witness :
  outcome (fetch_whereis (net_whereis [player_record "alex"; player_record "Notch"]) "NOTCH")
          (sample_session 1 0 (sample_page 20)) = inr (player_record "Notch") /\
  (player_record "Notch" = JNull \/
   exists d s, player_record "Notch" = JDict d /\
               default (JStr "") (dict_get d "name") = JStr s /\
               lower s = lower "NOTCH").
Proof.
  split; [reflexivity|].
  apply (fetch_whereis_returns_the_player
           (net_whereis [player_record "alex"; player_record "Notch"]) "NOTCH"
           (sample_session 1 0 (sample_page 20))).
  reflexivity.
Defined.

Lemma first_match_skips identifier before p after :
  Forall (fun q => name_matches identifier q = inr false) before ->
  name_matches identifier p = inr true ->
  first_match identifier (before ++ p :: after) = inr p.
Proof.
  intros Hbefore Hp.
  induction Hbefore as [|q before Hq _ IH]; cbn [app first_match].
  - rewrite Hp. reflexivity.
  - rewrite Hq. cbn [mbind result_bind]. exact IH.
Qed.

Lemma whereis_pick_first_match identifier d before p after :
  dict_get d "players" = Some (JList (before ++ p :: after)) ->
  Forall (fun q => name_matches identifier q = inr false) before ->
  name_matches identifier p = inr true ->
  whereis_pick identifier (JDict d) = inr p.
Proof.
  intros Hd Hbefore Hp.
  unfold whereis_pick. cbn [py_contains mbind result_bind].
  rewrite Hd. rewrite bool_decide_eq_true_2 by eauto.
  cbn [negb mbind result_bind mret result_ret py_get default from_option id].
  rewrite Hd. cbn [default from_option id mbind result_bind].
  assert (Hor : py_or (JList (before ++ p :: after)) (JList [])
                = JList (before ++ p :: after)).
  { unfold py_or. cbn [truthy]. destruct before; reflexivity. }
  rewrite Hor. cbn [py_iter mbind result_bind].
  apply first_match_skips; assumption.
Qed.

(** X8. When the 200 response is an object with a list under "players",
    [fetch_whereis] returns the first player of the list whose name matches
    the identifier up to case, provided the players before it are records
    with a string name; the records after it are not looked at, and a
    top-level "name" is ignored. *)
Theorem fetch_whereis_first_match :
  forall net identifier w d before p after,
    net (Request (String.append API_URL_WHEREIS (String.append "/" identifier)) ∅)
      = Some (Response 200 (Some (JDict d))) ->
    dict_get d "players" = Some (JList (before ++ p :: after)) ->
    Forall (fun q => name_matches identifier q = inr false) before ->
    name_matches identifier p = inr true ->
    outcome (fetch_whereis net identifier) w = inr p.
Proof.
  intros net identifier w d before p after Hnet Hd Hbefore Hp.
  unfold fetch_whereis, response_json, outcome. msimpl. rewrite Hnet.
  cbn. apply (whereis_pick_first_match identifier d before p after); assumption.
Qed.

Lemma fetch_whereis_first_match_witness :
  outcome (fetch_whereis
             (net_status 200
                (Some (JDict [("name", JStr "notch");
                              ("players", JList ([player_record "alex"]
                                 ++ player_record "Notch"
                                 :: [player_record "NOTCH"; JNull]))])))
             "notch")
          (sample_session 1 0 (sample_page 20))
  = inr (player_record "Notch").
Proof.
  apply (fetch_whereis_first_match _ "notch" (sample_session 1 0 (sample_page 20))
           [("name", JStr "notch");
            ("players", JList ([player_record "alex"] ++ player_record "Notch"
                               :: [player_record "NOTCH"; JNull]))]
           [player_record "alex"] (player_record "Notch")
           [player_record "NOTCH"; JNull]).
  - reflexivity.
  - reflexivity.
  - repeat constructor.
  - reflexivity.
Defined.

(** X9. [/whereis] with neither or with both of username and UUID (an empty
    text counts as absent) answers with its usage message and sends no
    request; with exactly one of them it sends exactly one request, to
    [/whereis/<identifier>]. *)
Theorem whereis_cmd_validation :
  forall net username uuid w,
    (provided username = provided uuid ->
       whereis_cmd net username uuid w =
         (inr (if provided username then ProvideOnlyOne else ProvideEither), w)) /\
    (provided username <> provided uuid ->
       sent (exec (whereis_cmd net username uuid) w) =
         sent w ++ [Request (String.append API_URL_WHEREIS
                               (String.append "/"
                                  (default "" (if provided uuid then uuid else username))))
                            ∅]).
Proof.
  intros net username uuid w. unfold whereis_cmd. split; intros H.
  - rewrite <- H. destruct (provided username); reflexivity.
  - assert (E1 : negb (provided username) && negb (provided uuid) = false)
      by (destruct (provided username), (provided uuid); try reflexivity; congruence).
    assert (E2 : provided username && provided uuid = false)
      by (destruct (provided username), (provided uuid); try reflexivity; congruence).
    rewrite E1, E2.
    set (identifier := default "" _).
    unfold fetch_whereis, response_json. msimpl.
    destruct (net _) as [r|]; [|reflexivity].
    destruct (negb (status_code r =? 200)); [reflexivity|].
    destruct (body r) as [data|]; [|reflexivity].
    destruct (whereis_pick identifier data) as [e|v]; [reflexivity|].
    destruct (negb (truthy v)); [reflexivity|].
    destruct (py_get v "servers" (JList [])) as [e|s]; [reflexivity|].
    destruct (negb (truthy s)); reflexivity.
Qed.

Lemma whereis_cmd_validation_witness :
  whereis_cmd (net_whereis []) (Some "Notch") (Some "069a79f4") 
              (sample_session 1 0 (sample_page 20))
    = (inr ProvideOnlyOne, sample_session 1 0 (sample_page 20)) /\
  whereis_cmd (net_whereis []) (Some "") None (sample_session 1 0 (sample_page 20))
    = (inr ProvideEither, sample_session 1 0 (sample_page 20)) /\
  sent (exec (whereis_cmd (net_whereis []) (Some "Notch") None)
             (sample_session 1 0 (sample_page 20)))
    = [Request (String.append API_URL_WHEREIS "/Notch") ∅].
Proof.
  split; [|split].
  - apply (proj1 (whereis_cmd_validation (net_whereis []) (Some "Notch")
                    (Some "069a79f4") (sample_session 1 0 (sample_page 20)))).
    reflexivity.
  - apply (proj1 (whereis_cmd_validation (net_whereis []) (Some "") None
                    (sample_session 1 0 (sample_page 20)))).
    reflexivity.
  - apply (proj2 (whereis_cmd_validation (net_whereis []) (Some "Notch") None
                    (sample_session 1 0 (sample_page 20)))).
    discriminate.
Defined.

(** X10. When [/whereis] goes on to show servers, the player it shows is a
    record whose name equals the identifier up to case, and its "servers"
    value is truthy. *)
Theorem whereis_cmd_shows_the_player :
  forall net username uuid w search_type player servers,
    outcome (whereis_cmd net username uuid) w
      = inr (ShowServers search_type player servers) ->
    let identifier := default "" (if provided uuid then uuid else username) in
    (exists d s, player = JDict d /\
                 default (JStr "") (dict_get d "name") = JStr s /\
                 lower s = lower identifier /\
                 dict_get d "servers" = Some servers) /\
    truthy servers = true /\
    search_type = (if provided uuid then "UUID" else "Username").
Proof.
  intros net username uuid w search_type player servers.
  unfold whereis_cmd, outcome.
  destruct (negb (provided username) && negb (provided uuid)); [discriminate|].
  destruct (provided username && provided uuid); [discriminate|].
  set (identifier := default "" _).
  unfold mbind at 1, M_bind at 1.
  pose proof (fetch_whereis_returns_the_player net identifier w) as Hsound.
  unfold outcome in Hsound.
  destruct (fetch_whereis net identifier w) as [[e|data] w1]; [discriminate|].
  cbn [fst] in Hsound.
  destruct (truthy data) eqn:Ht; cbn [negb]; [|discriminate].
  destruct (Hsound data eq_refl) as [->|(d & s & -> & Hname & Hlow)];
    [discriminate|].
  msimpl. cbn [py_get].
  destruct (truthy (default (JList []) (dict_get d "servers"))) eqn:Hs;
    cbn [negb]; [|discriminate].
  cbn [fst]. intros H. injection H as <- <- <-.
  cbv zeta. split; [|split; [exact Hs | reflexivity]].
  exists d, s. repeat split; try assumption.
  destruct (dict_get d "servers"); [reflexivity | discriminate Hs].
Qed.

Lemma whereis_cmd_shows_the_player_witness :
  exists d s, player_record "Notch" = JDict d /\
              default (JStr "") (dict_get d "name") = JStr s /\
              lower s = lower "notch" /\
              dict_get d "servers"
                = Some (JList [JDict [("ip", JStr "198.51.100.1"); ("port", JNum 25565)]]).
Proof.
  apply (whereis_cmd_shows_the_player (net_whereis [player_record "Notch"])
           (Some "notch") None (sample_session 1 0 (sample_page 20)) "Username"
           (player_record "Notch")
           (JList [JDict [("ip", JStr "198.51.100.1"); ("port", JNum 25565)]])).
  reflexivity.
Defined.

(** ** The command /server *)

Lemma lookup_opt_insert k x m k' :
  opt_insert k x m !! k' =
    if decide (k = k') then (match x with Some v => Some v | None => m !! k' end)
    else m !! k'.
Proof.
  destruct x as [v|]; cbn [opt_insert].
  - rewrite lookup_insert. destruct (decide (k = k')); reflexivity.
  - destruct (decide (k = k')); reflexivity.
Qed.

Lemma set_filter_content l k x w P :
  dicts w !! l = Some P ->
  exists w', set_filter l k x w = (inr tt, w') /\
             dicts w' !! l = Some (opt_insert k x P) /\
             view w' = view w /\ sent w' = sent w.
Proof.
  intros HP. destruct x as [v|]; cbn.
  - eexists; split; [reflexivity|]. cbn. rewrite lookup_insert_eq, HP. auto.
  - exists w. auto.
Qed.

(** The command up to its fetch: the dictionary it has built. *)
Lemma server_cmd_prefix net pg sw co ve so au mp w :
  let l := fresh (dom (dicts w)) in
  exists w6,
    dicts w6 !! l = Some (filters_of sw co ve so au mp) /\
    view w6 = view w /\ sent w6 = sent w /\
    server_cmd net pg sw co ve so au mp w =
      (servers ← call_fetch_servers net pg l;
       if negb (truthy servers) then mret None
       else
         ServerInfoButtons_init servers pg (Some l);;
         window ← lift (py_slice servers 0 5);
         fs ← lift (server_fields 1 window);
         mret (Some fs)) w6.
Proof.
  intros l. unfold server_cmd.
  rewrite (bind_run _ _ w l (mkWorld (view w) (<[l := ∅]> (dicts w)) (sent w)))
    by reflexivity.
  assert (H0 : dicts (mkWorld (view w) (<[l := ∅]> (dicts w)) (sent w)) !! l = Some ∅)
    by (cbn; apply lookup_insert_eq).
  destruct (set_filter_content l "software" (given sw) _ _ H0) as (w1 & E1 & H1 & V1 & S1).
  rewrite (bind_run _ _ _ _ _ E1).
  destruct (set_filter_content l "version" (given ve) _ _ H1) as (w2 & E2 & H2 & V2 & S2).
  rewrite (bind_run _ _ _ _ _ E2).
  destruct (set_filter_content l "sort" (QStr <$> so) _ _ H2) as (w3 & E3 & H3 & V3 & S3).
  rewrite (bind_run _ _ _ _ _ E3).
  destruct (set_filter_content l "authmode" (QStr <$> au) _ _ H3) as (w4 & E4 & H4 & V4 & S4).
  rewrite (bind_run _ _ _ _ _ E4).
  destruct (set_filter_content l "minPlayers" (QInt <$> mp) _ _ H4) as (w5 & E5 & H5 & V5 & S5).
  rewrite (bind_run _ _ _ _ _ E5).
  destruct (set_filter_content l "country" (given co) _ _ H5) as (w6 & E6 & H6 & V6 & S6).
  rewrite (bind_run _ _ _ _ _ E6).
  cbn [view sent] in V1, S1.
  exists w6. repeat split.
  - exact H6.
  - congruence.
  - congruence.
Qed.

Lemma filters_of_no_page sw co ve so au mp :
  filters_of sw co ve so au mp !! "page" = None.
Proof.
  unfold filters_of. rewrite !lookup_opt_insert.
  repeat (destruct (decide _) as [?|_]; [discriminate|]).
  apply lookup_empty.
Qed.

(** The view after [ServerInfoButtons(svs, pg, params)] on a dictionary of
    content [P]: [params or {}] gives a dictionary of the same content. *)
Lemma ServerInfoButtons_init_content svs pg l w P :
  dicts w !! l = Some P ->
  let w' := exec (ServerInfoButtons_init svs pg (Some l)) w in
  servers (view w') = svs /\ page (view w') = pg /\ start_index (view w') = 0 /\
  dicts w' !! params (view w') = Some P /\ sent w' = sent w.
Proof.
  intros HP w'. subst w'. unfold ServerInfoButtons_init, exec.
  assert (Hfst : exists l' w1,
            (d ← read_dict l; if decide (d = ∅) then alloc_dict ∅ else mret l) w
              = (inr l', w1) /\ dicts w1 !! l' = Some P /\ sent w1 = sent w).
  { msimpl. rewrite HP. cbn [default from_option id]. destruct (decide _) as [->|].
    - eexists _, _. split; [reflexivity|]. cbn. rewrite lookup_insert_eq. auto.
    - eexists _, _. split; [reflexivity | auto]. }
  destruct Hfst as (l' & w1 & E & H1 & S1).
  rewrite (bind_run _ _ _ _ _ E).
  rewrite (bind_run _ _ w1 tt (mkWorld (mkView svs pg l' 0 []) (dicts w1) (sent w1)))
    by reflexivity.
  destruct (update_buttons_same
              (mkWorld (mkView svs pg l' 0 []) (dicts w1) (sent w1)))
    as (Hsv & Hpg & Hps & Hsi & Hd & Hsn).
  unfold exec in Hsv, Hpg, Hps, Hsi, Hd, Hsn. cbn in Hsv, Hpg, Hps, Hsi, Hd, Hsn.
  rewrite Hsv, Hpg, Hps, Hsi, Hd, Hsn. repeat split; assumption.
Qed.

Lemma first_embed_same svs w0 :
  exec (lift (py_slice svs 0 5)
        ≫= λ window : list json,
             lift (server_fields 1 window)
             ≫= λ fs0 : list field, mret (Some fs0)) w0 = w0.
Proof.
  msimpl. destruct (py_slice _ _ _); [reflexivity|].
  destruct (server_fields _ _); reflexivity.
Qed.

(** X11. [/server] always sends exactly one request, to [/servers], whose
    parameters are the page number and the options given: a text option
    that is absent or empty is left out, [minplayers = 0] is kept, and no
    other key is sent. *)
Theorem server_cmd_sends_one_request :
  forall net pg sw co ve so au mp w,
    exists Q,
      sent (exec (server_cmd net pg sw co ve so au mp) w)
        = sent w ++ [Request API_URL Q] /\
      Q !! "page" = Some (QInt pg) /\
      Q !! "software" = given sw /\
      Q !! "version" = given ve /\
      Q !! "country" = given co /\
      Q !! "sort" = (QStr <$> so) /\
      Q !! "authmode" = (QStr <$> au) /\
      Q !! "minPlayers" = (QInt <$> mp) /\
      (forall k, k <> "page" -> k <> "software" -> k <> "version" ->
                 k <> "country" -> k <> "sort" -> k <> "authmode" ->
                 k <> "minPlayers" -> Q !! k = None).
Proof.
  intros net pg sw co ve so au mp w.
  exists (<["page" := QInt pg]> (filters_of sw co ve so au mp)). split.
  - unfold exec.
    destruct (server_cmd_prefix net pg sw co ve so au mp w)
      as (w6 & H6 & V6 & S6 & ->).
    set (l := fresh (dom (dicts w))) in *.
    pose proof (call_fetch_servers_spec net pg l w6) as Hfetch. cbv zeta in Hfetch.
    rewrite H6 in Hfetch. cbn [default from_option id] in Hfetch.
    destruct (decide _) as [[x Hx]|_] in Hfetch;
      [rewrite filters_of_no_page in Hx; discriminate|].
    set (w7 := mkWorld (view w6) _ _) in Hfetch.
    assert (S7 : sent w7 = sent w ++ [Request API_URL
                   (<["page" := QInt pg]> (filters_of sw co ve so au mp))])
      by (unfold w7; cbn; rewrite S6; reflexivity).
    assert (H7 : dicts w7 !! l = Some (filters_of sw co ve so au mp)).
    { unfold w7; cbn. rewrite lookup_insert_ne; [exact H6|].
      intros Heq. apply (is_fresh (dom (dicts w6))). rewrite Heq.
      apply elem_of_dom. eauto. }
    clearbody w7.
    destruct (fetch_outcome _ _) as [e|svs].
    { rewrite (bind_raise _ _ _ _ _ Hfetch). exact S7. }
    rewrite (bind_run _ _ _ _ _ Hfetch).
    destruct (truthy svs); cbn [negb]; [|exact S7].
    match goal with
    | |- context [snd (?m w7)] => change (snd (m w7)) with (exec m w7)
    end.
    destruct (ServerInfoButtons_init_content svs pg l w7 _ H7) as (_ & _ & _ & _ & S8).
    rewrite exec_bind.
    destruct (outcome _ w7); [congruence|].
    rewrite first_embed_same. congruence.
  - unfold filters_of.
    repeat split; try (intros k; intros);
      rewrite lookup_insert, !lookup_opt_insert;
      repeat (destruct (decide _) as [?|?]; try congruence; try discriminate);
      try rewrite lookup_empty; try reflexivity.
    all: try (destruct (given sw); reflexivity).
    all: try (destruct (given ve); reflexivity).
    all: try (destruct (given co); reflexivity).
    all: try (destruct so; reflexivity).
    all: try (destruct au; reflexivity).
    all: try (destruct mp; reflexivity).
Qed.

(** The command after its fetch, by what the fetch gave. *)
Lemma server_cmd_cases net pg sw co ve so au mp w :
  let F := filters_of sw co ve so au mp in
  let r := outcome (server_cmd net pg sw co ve so au mp) w in
  let w' := exec (server_cmd net pg sw co ve so au mp) w in
  (exists e, r = inl e /\ (view w' = view w \/
      (truthy (servers (view w')) = true /\ page (view w') = pg /\
       start_index (view w') = 0 /\ dicts w' !! params (view w') = Some F))) \/
  (r = inr None /\ view w' = view w) \/
  (exists fs, r = inr (Some fs) /\
      truthy (servers (view w')) = true /\ page (view w') = pg /\
      start_index (view w') = 0 /\ dicts w' !! params (view w') = Some F).
Proof.
  intros F r w'. subst r w'. unfold outcome, exec.
  destruct (server_cmd_prefix net pg sw co ve so au mp w)
    as (w6 & H6 & V6 & S6 & ->). fold F in H6.
  set (l := fresh (dom (dicts w))) in *.
  pose proof (call_fetch_servers_spec net pg l w6) as Hfetch. cbv zeta in Hfetch.
  rewrite H6 in Hfetch. cbn [default from_option id] in Hfetch.
  destruct (decide _) as [[x Hx]|_] in Hfetch;
    [unfold F in Hx; rewrite filters_of_no_page in Hx; discriminate|].
  set (w7 := mkWorld (view w6) _ _) in Hfetch.
  assert (V7 : view w7 = view w) by (unfold w7; cbn; exact V6).
  assert (H7 : dicts w7 !! l = Some F).
  { unfold w7; cbn. rewrite lookup_insert_ne; [exact H6|].
    intros Heq. apply (is_fresh (dom (dicts w6))). rewrite Heq.
    apply elem_of_dom. eauto. }
  clearbody w7.
  destruct (fetch_outcome _ _) as [e|svs].
  { rewrite (bind_raise _ _ _ _ _ Hfetch). left. exists e. cbn. auto. }
  rewrite (bind_run _ _ _ _ _ Hfetch).
  destruct (truthy svs) eqn:Ht; cbn [negb]; [|right; left; cbn; auto].
  destruct (ServerInfoButtons_init_content svs pg l w7 _ H7)
    as (Hsv & Hpg & Hsi & Hd & _).
  unfold exec in Hsv, Hpg, Hsi, Hd.
  destruct (ServerInfoButtons_init svs pg (Some l) w7) as [[e|[]] w8] eqn:E8;
    cbn [snd] in Hsv, Hpg, Hsi, Hd.
  { rewrite (bind_raise _ _ _ _ _ E8). left. exists e. cbn [fst snd].
    rewrite Hsv. auto 10. }
  assert (Hw8 : truthy (servers (view w8)) = true /\ page (view w8) = pg /\
                start_index (view w8) = 0 /\ dicts w8 !! params (view w8) = Some F)
    by (rewrite Hsv; auto).
  rewrite (bind_run _ _ _ _ _ E8). msimpl.
  destruct (py_slice svs 0 5) as [e|window]; [left; exists e; cbn; auto|].
  destruct (server_fields 1 window) as [e|fs]; [left; exists e; cbn; auto|].
  right; right. exists fs. cbn. auto.
Qed.



(** X13. When [/server] answers "No servers found", no session is created:
    the view is as it was. *)
Theorem server_cmd_no_results_no_session :
  forall net pg sw co ve so au mp w,
    outcome (server_cmd net pg sw co ve so au mp) w = inr None ->
    view (exec (server_cmd net pg sw co ve so au mp) w) = view w.
Proof.
  intros net pg sw co ve so au mp w Hout.
  destruct (server_cmd_cases net pg sw co ve so au mp w)
    as [(e & He & _) | [(_ & Hv) | (fs' & Hfs & _)]];
    [congruence | exact Hv | congruence].
Qed.

Lemma server_cmd_no_results_no_session_witness :
  let w := sample_session 7 10 (sample_page 20) in
  outcome (server_cmd (net_status 404 None) 1 None None None None None None) w
    = inr None /\
  view (exec (server_cmd (net_status 404 None) 1 None None None None None None) w)
    = view w.
Proof.
  split; [reflexivity|].
  apply (server_cmd_no_results_no_session (net_status 404 None) 1
           None None None None None None (sample_session 7 10 (sample_page 20))).
  reflexivity.
Defined.

(** ** Walking through the pages *)

Lemma navigate_index ev w :
  well_placed w ->
  well_placed (exec (navigate ev) w) /\
  abs_index (exec (navigate ev) w) = index_step (abs_index w) ev.1.
Proof.
  destruct ev as [d net]. unfold navigate, well_placed, abs_index. cbn [fst snd].
  destruct (PageButton_callback_state (direction_value d) net w) as (_ & -> & ->).
  intros [Hp Hs].
  destruct d; cbn [direction_value index_step].
  - change (-1 * 5) with (-5).
    destruct (Z.leb_spec 20 (start_index (view w) + -5)); [lia|].
    destruct (Z.ltb_spec (start_index (view w) + -5) 0).
    + destruct (Z.eqb_spec (page (view w)) 1); lia.
    + lia.
  - change (1 * 5) with 5.
    destruct (Z.leb_spec 20 (start_index (view w) + 5)); [lia|].
    destruct (Z.ltb_spec (start_index (view w) + 5) 0); lia.
Qed.

Lemma run_index evs :
  forall w,
    well_placed w ->
    well_placed (run evs w) /\
    abs_index (run evs w) = fold_left index_step (map fst evs) (abs_index w).
Proof.
  induction evs as [|ev evs IH]; intros w Hw; cbn [run map fold_left].
  - auto.
  - destruct (navigate_index ev w Hw) as [Hw' <-]. apply IH, Hw'.
Qed.

Lemma well_placed_state w a :
  well_placed w -> abs_index w = a ->
  page (view w) = 1 + a / 20 /\ start_index (view w) = a mod 20.
Proof.
  unfold well_placed, abs_index. intros [Hp Hs] <-.
  assert (Hr : 0 <= start_index (view w) < 20) by lia.
  split.
  - rewrite Z.add_comm, Z.div_add_l by lia.
    rewrite (Z.div_small _ 20) by lia. lia.
  - rewrite Z.add_comm, Z.mod_add by lia. rewrite Z.mod_small by lia. reflexivity.
Qed.

Lemma fold_next evs a :
  Forall (fun ev : direction * network => ev.1 = Next) evs ->
  fold_left index_step (map fst evs) a = a + 5 * Z.of_nat (List.length evs).
Proof.
  intros H. revert a. induction H as [|ev evs Hev _ IH]; intros a;
    cbn [map fold_left List.length].
  - lia.
  - rewrite Hev. cbn [index_step]. rewrite IH. lia.
Qed.

Lemma fold_previous evs a :
  0 <= a ->
  Forall (fun ev : direction * network => ev.1 = Previous) evs ->
  fold_left index_step (map fst evs) a = Z.max 0 (a - 5 * Z.of_nat (List.length evs)).
Proof.
  intros Ha H. revert a Ha. induction H as [|ev evs Hev _ IH]; intros a Ha;
    cbn [map fold_left List.length].
  - lia.
  - rewrite Hev. cbn [index_step]. rewrite IH by lia. lia.
Qed.

(** X14. From page [p >= 1] at an offset [o] among 0, 5, 10, 15, after [n]
    clicks on Next, whatever the network answers, the session is on page
    [p + (o + 5n) / 20] at offset [(o + 5n) mod 20]. *)
Theorem next_clicks_advance :
  forall evs w p o,
    page (view w) = p -> p >= 1 ->
    start_index (view w) = o -> (o = 0 \/ o = 5 \/ o = 10 \/ o = 15) ->
    Forall (fun ev : direction * network => ev.1 = Next) evs ->
    let n := Z.of_nat (List.length evs) in
    page (view (run evs w)) = p + (o + 5 * n) / 20 /\
    start_index (view (run evs w)) = (o + 5 * n) mod 20.
Proof.
  intros evs w p o Hp Hp1 Ho Hmul Hnext n.
  assert (Hw : well_placed w) by (unfold well_placed; subst; auto).
  destruct (run_index evs w Hw) as [Hw' Ha].
  rewrite fold_next in Ha by assumption. fold n in Ha.
  destruct (well_placed_state _ _ Hw' Ha) as [-> ->].
  unfold abs_index. rewrite Hp, Ho.
  replace ((p - 1) * 20 + o + 5 * n) with ((o + 5 * n) + (p - 1) * 20) by lia.
  rewrite Z.div_add, Z.mod_add by lia. split; [lia | reflexivity].
Qed.

Lemma next_clicks_advance_witness :
  let evs := [(Next, net_page 20); (Next, net_down); (Next, net_empty);
              (Next, net_page 3); (Next, net_garbled); (Next, net_page 20)] in
  let w := sample_session 2 10 (sample_page 20) in
  page (view (run evs w)) = 2 + (10 + 5 * 6) / 20 /\
  start_index (view (run evs w)) = (10 + 5 * 6) mod 20.
Proof.
  apply (next_clicks_advance
           [(Next, net_page 20); (Next, net_down); (Next, net_empty);
            (Next, net_page 3); (Next, net_garbled); (Next, net_page 20)]
           (sample_session 2 10 (sample_page 20)) 2 10).
  - reflexivity.
  - lia.
  - reflexivity.
  - right; right; left; reflexivity.
  - repeat constructor.
Defined.

(** X15. Clicks on Previous stop at the first window: from page [p >= 1] at
    an offset [o] among 0, 5, 10, 15, after [n] clicks on Previous the
    window starts at position [max(0, 20(p-1) + o - 5n)] of the result list;
    once [5n] reaches [20(p-1) + o] the session is at page 1, offset 0, and
    stays there. *)
Theorem previous_clicks_stop_at_start :
  forall evs w p o,
    page (view w) = p -> p >= 1 ->
    start_index (view w) = o -> (o = 0 \/ o = 5 \/ o = 10 \/ o = 15) ->
    Forall (fun ev : direction * network => ev.1 = Previous) evs ->
    let n := Z.of_nat (List.length evs) in
    abs_index (run evs w) = Z.max 0 (20 * (p - 1) + o - 5 * n) /\
    (20 * (p - 1) + o <= 5 * n ->
     page (view (run evs w)) = 1 /\ start_index (view (run evs w)) = 0).
Proof.
  intros evs w p o Hp Hp1 Ho Hmul Hprev n.
  assert (Hw : well_placed w) by (unfold well_placed; subst; auto).
  destruct (run_index evs w Hw) as [Hw' Ha].
  assert (H0 : 0 <= abs_index w) by (unfold abs_index; lia).
  rewrite fold_previous in Ha by assumption. fold n in Ha.
  unfold abs_index at 2 in Ha. rewrite Hp, Ho in Ha.
  split; [rewrite Ha; f_equal; lia|].
  intros Hn.
  assert (Ha0 : abs_index (run evs w) = 0) by lia.
  destruct (well_placed_state _ _ Hw' Ha0) as [-> ->]. split; reflexivity.
Qed.

Lemma previous_clicks_stop_at_start_witness :
  let evs := [(Previous, net_page 20); (Previous, net_down);
              (Previous, net_empty); (Previous, net_page 3)] in
  let w := sample_session 2 5 (sample_page 20) in
  abs_index (run evs w) = Z.max 0 (20 * (2 - 1) + 5 - 5 * 4) /\
  (20 * (2 - 1) + 5 <= 5 * 4 ->
   page (view (run evs w)) = 1 /\ start_index (view (run evs w)) = 0).
Proof.
  apply (previous_clicks_stop_at_start
           [(Previous, net_page 20); (Previous, net_down);
            (Previous, net_empty); (Previous, net_page 3)]
           (sample_session 2 5 (sample_page 20)) 2 5).
  - reflexivity.
  - lia.
  - reflexivity.
  - right; left; reflexivity.
  - repeat constructor.
Defined.

(** X16. A session that starts on a page at least 1 never asks for a page
    below 1: along every sequence of clicks the stored page number stays at
    least 1, and every request sent carries the parameters of the session
    and a page number at least 1. *)
Theorem pages_requested_are_positive :
  forall evs w P,
    page (view w) >= 1 ->
    dicts w !! params (view w) = Some P ->
    page (view (run evs w)) >= 1 /\
    exists pages,
      sent (run evs w) = sent w ++ map (page_request P) pages /\
      Forall (fun pg => pg >= 1) pages.
Proof.
  induction evs as [|[d net] evs IH]; intros w P Hp HP; cbn [run].
  - split; [exact Hp|]. exists []. split; [symmetry; apply app_nil_r | constructor].
  - unfold navigate. cbn [fst snd].
    destruct (PageButton_callback_requests (direction_value d) net w P HP)
      as (Hps & Hd & Hsn).
    destruct (PageButton_callback_state (direction_value d) net w) as (_ & Hpg & _).
    set (w1 := exec (PageButton_callback (direction_value d) net) w) in *.
    assert (Hp1 : page (view w1) >= 1).
    { rewrite Hpg. destruct (20 <=? _); [lia|].
      destruct (_ <? 0); [|exact Hp].
      destruct (Z.eqb_spec (page (view w)) 1); lia. }
    rewrite <- Hps in Hd.
    destruct (IH w1 P Hp1 Hd) as (Hfin & pages & Hsent & Hall).
    split; [exact Hfin|].
    destruct Hsn as [E | E]; rewrite Hsent, E.
    + exists pages. auto.
    + exists (page (view w1) :: pages). rewrite <- app_assoc. cbn [map app].
      split; [reflexivity | constructor; assumption].
Qed.

Lemma pages_requested_are_positive_witness :
  let evs := [(Previous, net_page 20); (Next, net_page 20); (Next, net_down);
              (Next, net_page 20); (Next, net_page 20); (Previous, net_page 20)] in
  let w := sample_session 1 0 (sample_page 20) in
  page (view (run evs w)) >= 1 /\
  exists pages,
    sent (run evs w) = sent w ++ map (page_request {[ "software" := QStr "Paper" ]}) pages /\
    Forall (fun pg => pg >= 1) pages.
Proof.
  apply (pages_requested_are_positive
           [(Previous, net_page 20); (Next, net_page 20); (Next, net_down);
            (Next, net_page 20); (Next, net_page 20); (Previous, net_page 20)]
           (sample_session 1 0 (sample_page 20)) {[ "software" := QStr "Paper" ]}).
  - cbn. lia.
  - reflexivity.
Defined.

(** ** What a page button shows *)

Lemma turned_raises net w pg' si' e :
  outcome (call_fetch_servers net pg' (params (view w))) w = inl e ->
  exists ds sn,
    turned net w pg' si' =
      (inl e, mkWorld (mkView (servers (view w)) pg' (params (view w)) si'
                              (children (view w))) ds sn).
Proof.
  unfold outcome. rewrite call_fetch_servers_spec. unfold turned.
  destruct (decide _); cbn [fst].
  - intros H. injection H as <-. eauto.
  - intros ->. eauto.
Qed.

(** X17. When the fetch of a page turn raises, the callback raises the same
    exception after the page number and the offset have moved: the view
    then names the new page at its first or last window but still holds the
    servers and the buttons of the old page. *)
Theorem failed_turn_keeps_old_servers :
  forall net w e,
    (start_index (view w) = 15 ->
     outcome (call_fetch_servers net (page (view w) + 1) (params (view w))) w = inl e ->
     let w' := exec (PageButton_callback 1 net) w in
     outcome (PageButton_callback 1 net) w = inl e /\
     page (view w') = page (view w) + 1 /\ start_index (view w') = 0 /\
     servers (view w') = servers (view w) /\
     children (view w') = children (view w)) /\
    (start_index (view w) = 0 -> page (view w) <> 1 ->
     outcome (call_fetch_servers net (page (view w) - 1) (params (view w))) w = inl e ->
     let w' := exec (PageButton_callback (-1) net) w in
     outcome (PageButton_callback (-1) net) w = inl e /\
     page (view w') = page (view w) - 1 /\ start_index (view w') = 15 /\
     servers (view w') = servers (view w) /\
     children (view w') = children (view w)).
Proof.
  intros net w e. split.
  - intros Hs He. cbv zeta. unfold outcome, exec, PageButton_callback.
    destruct (turned_raises net w (page (view w) + 1) 0 e He) as (ds & sn & Ht).
    assert (Hm : move_window 1 net w = (inl e, mkWorld
               (mkView (servers (view w)) (page (view w) + 1) (params (view w)) 0
                       (children (view w))) ds sn)).
    { rewrite move_window_spec, Hs. change (20 <=? 15 + 1 * 5) with true.
      cbv iota. exact Ht. }
    rewrite (bind_raise _ _ _ _ _ Hm). repeat split.
  - intros Hs Hp He. cbv zeta. unfold outcome, exec, PageButton_callback.
    destruct (turned_raises net w (page (view w) - 1) 15 e He) as (ds & sn & Ht).
    assert (Hm : move_window (-1) net w = (inl e, mkWorld
               (mkView (servers (view w)) (page (view w) - 1) (params (view w)) 15
                       (children (view w))) ds sn)).
    { rewrite move_window_spec, Hs.
      change (20 <=? 0 + -1 * 5) with false. change (0 + -1 * 5 <? 0) with true.
      cbv iota. destruct (Z.eqb_spec (page (view w)) 1); [contradiction | exact Ht]. }
    rewrite (bind_raise _ _ _ _ _ Hm). repeat split.
Qed.

Lemma failed_turn_keeps_old_servers_witness :
  let w := sample_session 1 15 (sample_page 20) in
  let w' := exec (PageButton_callback 1 net_down) w in
  outcome (PageButton_callback 1 net_down) w = inl ConnectionError /\
  page (view w') = page (view w) + 1 /\ start_index (view w') = 0 /\
  servers (view w') = servers (view w) /\
  children (view w') = children (view w).
Proof.
  apply (proj1 (failed_turn_keeps_old_servers net_down
                  (sample_session 1 15 (sample_page 20)) ConnectionError));
    reflexivity.
Defined.

Lemma move_window_range d net w :
  0 <= start_index (view (exec (move_window d net) w)) < 20.
Proof.
  unfold exec. rewrite move_window_spec. cbv zeta.
  destruct (Z.leb_spec 20 (start_index (view w) + d * 5)).
  - destruct (turned_state net w (page (view w) + 1) 0) as (_ & -> & _). lia.
  - destruct (Z.ltb_spec (start_index (view w) + d * 5) 0).
    + destruct (_ =? 1); [cbn; lia|].
      destruct (turned_state net w (page (view w) - 1) 15) as (_ & -> & _). lia.
    + cbn. lia.
Qed.

Lemma server_fields_length window :
  forall i fs, server_fields i window = inr fs -> List.length fs = List.length window.
Proof.
  induction window as [|s window IH]; intros i fs; cbn [server_fields].
  - intros H. cbv [mret result_ret] in H. injection H as <-. reflexivity.
  - destruct (server_field i s) as [e|f]; [discriminate|].
    cbn [mbind result_bind].
    destruct (server_fields (i + 1) window) as [e|fs'] eqn:E; [discriminate|].
    cbn [mbind result_bind]. intros H. cbv [mret result_ret] in H.
    injection H as <-. cbn [List.length]. f_equal. apply (IH (i + 1)), E.
Qed.

Lemma slice_length_le {A} (l : list A) (start : Z) :
  (List.length (slice l start (start + 5)) <= 5)%nat.
Proof. unfold slice. rewrite length_take. lia. Qed.

Lemma py_slice_length_le v start window :
  py_slice v start (start + 5) = inr window -> (List.length window <= 5)%nat.
Proof.
  destruct v; try discriminate; cbn [py_slice]; intros H; injection H as <-;
    apply slice_length_le.
Qed.

(** X18. Whenever a page button returns, the buttons of the view and the
    fields of the embed show the same servers: both are the slice of the
    loaded servers at the stored offset, which lies in [0, 20); there are at
    most five of them, and the two page buttons follow the server buttons. *)
Theorem buttons_and_embed_agree :
  forall d net w fs,
    outcome (PageButton_callback d net) w = inr fs ->
    let w' := exec (PageButton_callback d net) w in
    let si := start_index (view w') in
    0 <= si < 20 /\
    exists window,
      py_slice (servers (view w')) si (si + 5) = inr window /\
      children (view w') = window_buttons si window /\
      server_fields (si + 1) window = inr fs /\
      List.length fs = List.length window /\
      (List.length window <= 5)%nat.
Proof.
  intros d net w fs. unfold outcome, exec, PageButton_callback.
  pose proof (move_window_range d net w) as Hr. unfold exec in Hr.
  destruct (move_window d net w) as [[e|[]] w1] eqn:Em; cbn [snd] in Hr.
  { rewrite (bind_raise _ _ _ _ _ Em). discriminate. }
  rewrite (bind_run _ _ _ _ _ Em).
  unfold update_buttons, window_embed. msimpl.
  rewrite (Z.mod_small (start_index (view w1)) 20) by lia.
  destruct (py_slice (servers (view w1)) _ _) as [e|window] eqn:Es; [discriminate|].
  msimpl. rewrite Es.
  destruct (server_fields _ window) as [e|fs'] eqn:Ef; [discriminate|].
  cbn [fst snd view start_index servers children].
  intros H. injection H as <-.
  split; [exact Hr|]. exists window. repeat split; try assumption.
  - apply (server_fields_length _ _ _ Ef).
  - apply (py_slice_length_le _ _ _ Es).
Qed.

Lemma buttons_and_embed_agree_witness :
  let w := sample_session 1 15 (sample_page 20) in
  let w' := exec (PageButton_callback 1 (net_page 3)) w in
  0 <= start_index (view w') < 20 /\
  exists window,
    py_slice (servers (view w')) (start_index (view w')) (start_index (view w') + 5)
      = inr window /\
    children (view w') = window_buttons (start_index (view w')) window /\
    (List.length window <= 5)%nat.
Proof.
  cbv zeta.
  assert (Hout : exists fs, outcome (PageButton_callback 1 (net_page 3))
                              (sample_session 1 15 (sample_page 20)) = inr fs)
    by (eexists; vm_compute; reflexivity).
  destruct Hout as [fs Hout].
  pose proof (buttons_and_embed_agree 1 (net_page 3)
                (sample_session 1 15 (sample_page 20)) fs Hout) as H.
  cbv zeta in H. destruct H as (Hr & window & H1 & H2 & _ & _ & H5).
  split; [exact Hr|]. exists window. auto.
Defined.

Lemma shown_servers_imap (f : nat -> json -> item) window :
  (forall i x, exists n, f i x = ServerButton n x) ->
  shown_servers (imap f window) = window.
Proof.
  revert f. induction window as [|s window IH]; intros f Hf; [reflexivity|].
  cbn [imap]. destruct (Hf 0%nat s) as [n ->].
  change (shown_servers (ServerButton n s :: imap (f ∘ S) window))
    with (s :: shown_servers (imap (f ∘ S) window)).
  f_equal. apply IH. intros i x. apply Hf.
Qed.

Lemma shown_servers_window si window :
  shown_servers (window_buttons si window) = window.
Proof.
  unfold window_buttons, shown_servers. rewrite omap_app. cbn [omap].
  rewrite app_nil_r. apply shown_servers_imap. eauto.
Qed.

Lemma shown_at_list si w l :
  servers (view w) = JList l -> 0 <= si < 20 ->
  shown_at si w = slice l si (si + 5).
Proof.
  intros Hl Hsi. unfold shown_at, update_buttons. msimpl.
  rewrite Hl. cbn [py_slice]. msimpl. rewrite (Z.mod_small si 20) by lia.
  apply shown_servers_window.
Qed.

(** X19. The four windows of a loaded page of at most 20 servers show every
    server of the page once and in order: the servers behind the buttons at
    offsets 0, 5, 10 and 15, put one after the other, are the page. *)
Theorem windows_partition_the_page :
  forall w l,
    servers (view w) = JList l -> (List.length l <= 20)%nat ->
    shown_at 0 w ++ shown_at 5 w ++ shown_at 10 w ++ shown_at 15 w = l.
Proof.
  intros w l Hl Hlen.
  rewrite !(shown_at_list _ w l Hl) by lia. unfold slice.
  change (Z.to_nat (0 + 5 - 0)) with 5%nat. change (Z.to_nat (5 + 5 - 5)) with 5%nat.
  change (Z.to_nat (10 + 5 - 10)) with 5%nat.
  change (Z.to_nat (15 + 5 - 15)) with 5%nat.
  change (Z.to_nat 0) with 0%nat. change (Z.to_nat 5) with 5%nat.
  change (Z.to_nat 10) with 10%nat. change (Z.to_nat 15) with 15%nat.
  assert (E : forall n, take 5 (drop n l) ++ drop (n + 5) l = drop n l).
  { intros n. rewrite <- drop_drop. apply take_drop. }
  rewrite (take_ge (drop 15 l)) by (rewrite length_drop; lia).
  pose proof (E 10%nat) as E10. change (10 + 5)%nat with 15%nat in E10.
  pose proof (E 5%nat) as E5. change (5 + 5)%nat with 10%nat in E5.
  pose proof (E 0%nat) as E0. change (0 + 5)%nat with 5%nat in E0.
  rewrite E10, E5, E0. apply drop_0.
Qed.

Lemma windows_partition_the_page_witness :
  let w := sample_session 1 0 (sample_page 13) in
  shown_at 0 w ++ shown_at 5 w ++ shown_at 10 w ++ shown_at 15 w
    = map (fun i => sample_server (Z.of_nat i)) (seq 0 13).
Proof.
  apply (windows_partition_the_page (sample_session 1 0 (sample_page 13))).
  - reflexivity.
  - cbn. lia.
Defined.

(** X20. After [update_buttons] on a loaded list at an offset in [0, 20),
    the button labelled "Server n" opens the n-th server of the page, and
    its number lies in the window: [offset < n <= offset + 5]. *)
Theorem button_label_names_its_server :
  forall w l n s,
    servers (view w) = JList l -> 0 <= start_index (view w) < 20 ->
    ServerButton n s ∈ children (view (exec update_buttons w)) ->
    l !! Z.to_nat (n - 1) = Some s /\
    start_index (view w) < n <= start_index (view w) + 5.
Proof.
  intros w l n s Hl Hsi. unfold update_buttons. msimpl. rewrite Hl.
  cbn [py_slice]. msimpl. rewrite (Z.mod_small _ 20) by lia.
  rewrite elem_of_app. intros [Hin | Hin].
  - apply elem_of_lookup_imap in Hin. destruct Hin as (i & y & Heq & Hy).
    injection Heq as -> ->. unfold slice in Hy.
    apply lookup_take_Some in Hy. destruct Hy as [Hy Hi].
    rewrite lookup_drop in Hy.
    replace (Z.to_nat (start_index (view w) + Z.of_nat i + 1 - 1))
      with (Z.to_nat (start_index (view w)) + i)%nat by lia.
    split; [exact Hy | lia].
  - exfalso. apply elem_of_cons in Hin. destruct Hin as [Hin | Hin]; [discriminate|].
    apply elem_of_cons in Hin. destruct Hin as [Hin | Hin]; [discriminate|].
    inversion Hin.
Qed.

Lemma button_label_names_its_server_witness :
  let w := sample_session 1 10 (sample_page 13) in
  (map (fun i => sample_server (Z.of_nat i)) (seq 0 13)) !! Z.to_nat (13 - 1)
    = Some (sample_server 12) /\
  start_index (view w) < 13 <= start_index (view w) + 5.
Proof.
  apply (button_label_names_its_server (sample_session 1 10 (sample_page 13))
           (map (fun i => sample_server (Z.of_nat i)) (seq 0 13)) 13 (sample_server 12)).
  - reflexivity.
  - cbn. lia.
  - vm_compute. do 2 apply list_elem_of_further. apply list_elem_of_here.
Defined.

(** ** The detail record of a server *)

Lemma last_seen_ok iso ls :
  (exists p, last_seen iso ls = inr p) <->
  (truthy ls = false \/
   exists s ts, ls = JStr s /\ iso (replace_char "Z"%char "+00:00" s) = Some ts).
Proof.
  unfold last_seen. destruct (truthy ls) eqn:Ht.
  - split.
    + intros [p Hp]. right. destruct ls; try discriminate.
      cbn [py_replace_Z mbind result_bind] in Hp.
      destruct (iso _) as [ts|] eqn:E; [eauto | discriminate].
    + intros [H | (s & ts & -> & E)]; [discriminate|].
      cbn [py_replace_Z mbind result_bind]. rewrite E. eauto.
  - split; [auto | intros _; eauto].
Qed.

Lemma map_authmode_ok a :
  (exists i, map_authmode a = inr i) <->
  (truthy a = false \/ exists s, a = JStr s).
Proof.
  split.
  - intros [i Hi]. destruct (truthy a) eqn:Ht; [right | left; reflexivity].
    unfold map_authmode in Hi. rewrite Ht in Hi.
    destruct a; try discriminate. eauto.
  - intros [H | [s ->]].
    + rewrite map_authmode_falsy by exact H. eauto.
    + rewrite map_authmode_str. eauto.
Qed.

(** X21. [ServerButton.callback] returns its embed exactly for the records
    it can read: the server is an object; "lastSeen" is absent or falsy, or
    a string that [fromisoformat] accepts; "geolocation" is absent or an
    object whose "country" is absent or a string; "authmode" is absent or
    falsy, or a string.  For every other record it raises.  The embed it
    returns always has eight fields. *)
Theorem ServerButton_callback_succeeds_iff :
  forall iso_timestamp server,
    ((exists fs, ServerButton_callback iso_timestamp server = inr fs) <->
     exists d,
       server = JDict d /\
       (truthy (default JNull (dict_get d "lastSeen")) = false \/
        exists s ts, default JNull (dict_get d "lastSeen") = JStr s /\
                     iso_timestamp (replace_char "Z"%char "+00:00" s) = Some ts) /\
       (exists g c, default (JDict []) (dict_get d "geolocation") = JDict g /\
                    default (JStr "Unknown") (dict_get g "country") = JStr c) /\
       (truthy (default JNull (dict_get d "authmode")) = false \/
        exists s, default JNull (dict_get d "authmode") = JStr s)) /\
    (forall fs, ServerButton_callback iso_timestamp server = inr fs ->
                List.length fs = 8%nat).
Proof.
  intros iso server.
  destruct server as [| | | | |d];
    try (split; [split; [intros [fs H]; discriminate H
                        | intros (d & H & _); discriminate H]
                | intros fs H; discriminate H]).
  unfold ServerButton_callback. cbn [py_get mbind result_bind].
  pose proof (last_seen_ok iso (default JNull (dict_get d "lastSeen"))) as Hls.
  pose proof (map_authmode_ok (default JNull (dict_get d "authmode"))) as Ha.
  assert (Hfail : forall e : exn,
            ~ (exists fs : list field, @inl exn (list field) e = inr fs))
    by (intros e [fs H]; discriminate H).
  destruct (last_seen iso (default JNull (dict_get d "lastSeen"))) as [e1|p];
    cbn [mbind result_bind].
  { split; [split|]; [intros H; destruct (Hfail _ H) | | intros fs H; discriminate H].
    intros (d' & Hd & H1 & _). injection Hd as <-.
    apply Hls in H1. destruct H1 as [? H1]. discriminate H1. }
  destruct (default (JDict []) (dict_get d "geolocation")) as [| | | | |g] eqn:Eg;
    cbn [py_get mbind result_bind];
    try (split; [split|]; [intros H; destruct (Hfail _ H)
                          | intros (d' & Hd & _ & (g' & c' & Hg & _) & _);
                            injection Hd as <-; rewrite Eg in Hg; discriminate Hg
                          | intros fs H; discriminate H]).
  destruct (default (JStr "Unknown") (dict_get g "country")) as [| | |c| |] eqn:Ec;
    cbn [py_lower mbind result_bind];
    try (split; [split|]; [intros H; destruct (Hfail _ H)
                          | intros (d' & Hd & _ & (g' & c' & Hg & Hc) & _);
                            injection Hd as <-; rewrite Eg in Hg;
                            injection Hg as <-; rewrite Ec in Hc; discriminate Hc
                          | intros fs H; discriminate H]).
  destruct (map_authmode (default JNull (dict_get d "authmode"))) as [e2|auth];
    cbn [mbind result_bind].
  { split; [split|]; [intros H; destruct (Hfail _ H) | | intros fs H; discriminate H].
    intros (d' & Hd & _ & _ & H4). injection Hd as <-.
    apply Ha in H4. destruct H4 as [? H4]. discriminate H4. }
  split; [split|].
  - intros _. exists d. split; [reflexivity|].
    split; [apply Hls; eauto|]. split; [eauto | apply Ha; eauto].
  - intros _. eexists. reflexivity.
  - intros fs H. cbv [mret result_ret] in H. injection H as <-. reflexivity.
Qed.

Lemma ServerButton_callback_succeeds_iff_witness :
  exists fs,
    ServerButton_callback (fun _ => Some 1700000000)
      (JDict [("serverip", JStr "198.51.100.1:25565");
              ("lastSeen", JStr "2023-11-14T22:13:20Z")]) = inr fs /\
    List.length fs = 8%nat.
Proof.
  destruct (proj2 (proj1 (ServerButton_callback_succeeds_iff
              (fun _ => Some 1700000000)
              (JDict [("serverip", JStr "198.51.100.1:25565");
                      ("lastSeen", JStr "2023-11-14T22:13:20Z")]))))
    as [fs Hfs].
  - eexists. split; [reflexivity|]. split.
    + right. eexists _, _. split; reflexivity.
    + split; [eexists _, _; split; reflexivity | left; reflexivity].
  - exists fs. split; [exact Hfs|].
    apply (proj2 (ServerButton_callback_succeeds_iff _ _) fs Hfs).
Defined.

(** ** clean_motd and /mcinfo *)

Lemma lstrip_head s :
  lstrip s = "" \/ exists c t, lstrip s = String c t /\ is_space c = false.
Proof.
  induction s as [|c s IH]; cbn [lstrip]; [auto|].
  destruct (is_space c) eqn:E; [exact IH | eauto].
Qed.

Lemma rstrip_head c t :
  is_space c = false -> exists t', rstrip (String c t) = String c t'.
Proof.
  intros E. cbn [rstrip]. rewrite E. destruct (rstrip t); eauto.
Qed.

Lemma rstrip_cons c s a b :
  rstrip s = String a b -> rstrip (String c s) = String c (String a b).
Proof. intros E. cbn [rstrip]. rewrite E. reflexivity. Qed.

Lemma rstrip_idem s : rstrip (rstrip s) = rstrip s.
Proof.
  induction s as [|c s IH]; [reflexivity|].
  destruct (rstrip s) as [|c' t] eqn:E.
  - cbn [rstrip]. rewrite E.
    destruct (is_space c) eqn:Ec; [reflexivity|]. cbn [rstrip]. rewrite Ec. reflexivity.
  - rewrite (rstrip_cons c s c' t E). apply rstrip_cons. exact IH.
Qed.

Lemma strip_head s c t : strip s = String c t -> is_space c = false.
Proof.
  unfold strip. destruct (lstrip_head s) as [-> | (c0 & t0 & -> & E)];
    [discriminate|].
  destruct (rstrip_head c0 t0 E) as [t' ->]. intros H. injection H as <- _. exact E.
Qed.

Lemma strip_idem s : strip (strip s) = strip s.
Proof.
  unfold strip. destruct (lstrip_head s) as [-> | (c0 & t0 & -> & E)];
    [reflexivity|].
  destruct (rstrip_head c0 t0 E) as [t' Ht]. rewrite Ht.
  cbn [lstrip]. rewrite E. rewrite <- Ht. apply rstrip_idem.
Qed.

(** X22. Whatever the message of the day, [clean_motd] returns a text
    without white space at either end: stripping it again changes nothing,
    and its first character, when there is one, is no white space. *)
Theorem clean_motd_is_stripped :
  forall motd_obj,
    strip (clean_motd motd_obj) = clean_motd motd_obj /\
    (forall c t, clean_motd motd_obj = String c t -> is_space c = false).
Proof.
  intros m.
  assert (H : clean_motd m = "Unknown MOTD" \/ exists s, clean_motd m = strip s).
  { unfold clean_motd, clean_motd_try.
    destruct (raw m) as [[| | | | |d]|];
      try (destruct (parsed m); right; eexists; reflexivity).
    cbn [py_get mbind result_bind].
    destruct (py_join_empty _) as [e|joined]; [left; reflexivity|].
    cbn [mbind result_bind].
    destruct (py_add_str _ _) as [e|text]; [left; reflexivity|].
    right. eexists. reflexivity. }
  destruct H as [-> | [s ->]].
  - split; [reflexivity|]. intros c t H. injection H as <- _. reflexivity.
  - split; [apply strip_idem | intros c t; apply strip_head].
Qed.

Lemma all_str_strings ss : all_str (JStr <$> ss) = inr ss.
Proof.
  induction ss as [|s ss IH]; [reflexivity|].
  cbn [fmap list_fmap all_str as_str mbind result_bind].
  change (list_fmap string json JStr ss) with (JStr <$> ss). rewrite IH. reflexivity.
Qed.

Lemma all_str_fails l x :
  x ∈ l -> (forall s, x <> JStr s) -> exists e, all_str l = inl e.
Proof.
  intros Hin Hx. induction Hin as [x l | x y l _ IH]; cbn [all_str].
  - destruct x; try (eexists; reflexivity). exfalso. eapply Hx. reflexivity.
  - destruct (as_str y); [eexists; reflexivity|]. cbn [mbind result_bind].
    destruct (IH Hx) as [e ->]. eexists. reflexivity.
Qed.

(** X23. When the raw message is an object whose "extra" list holds an item
    that is no string (the usual shape of a Minecraft message, a list of
    text components), [clean_motd] returns "Unknown MOTD", whatever [parsed]
    and [str(motd)] would have given. *)
Theorem clean_motd_component_extras_unknown :
  forall d extras x parsed_items text,
    dict_get d "extra" = Some (JList extras) ->
    x ∈ extras -> (forall s, x <> JStr s) ->
    clean_motd (Motd (Some (JDict d)) parsed_items text) = "Unknown MOTD".
Proof.
  intros d extras x parsed_items text Hd Hin Hx.
  unfold clean_motd, clean_motd_try. cbn [raw py_get mbind result_bind].
  rewrite Hd. cbn [default from_option id].
  unfold py_join_empty. cbn [py_iter mbind result_bind].
  destruct (all_str_fails extras x Hin Hx) as [e ->]. reflexivity.
Qed.

Lemma clean_motd_component_extras_unknown_witness :
  clean_motd
    (Motd (Some (JDict [("text", JStr "");
                        ("extra", JList [JDict [("text", JStr "A Minecraft Server");
                                                ("color", JStr "gold")]])]))
          (Some [CFormat; CStr "A Minecraft Server"])
          "A Minecraft Server")
  = "Unknown MOTD".
Proof.
  apply (clean_motd_component_extras_unknown _
           [JDict [("text", JStr "A Minecraft Server"); ("color", JStr "gold")]]
           (JDict [("text", JStr "A Minecraft Server"); ("color", JStr "gold")])).
  - reflexivity.
  - apply list_elem_of_here.
  - discriminate.
Defined.

(** X24. When the raw message is an object whose "text" is a string (or
    absent) and whose "extra" is a list of strings (or absent),
    [clean_motd] returns the text followed by the extras, stripped; the
    parsed message is not used. *)
Theorem clean_motd_text_and_extras :
  forall d t ss parsed_items text,
    default (JStr "") (dict_get d "text") = JStr t ->
    default (JList []) (dict_get d "extra") = JList (JStr <$> ss) ->
    clean_motd (Motd (Some (JDict d)) parsed_items text)
      = strip (String.append t (concat_str ss)).
Proof.
  intros d t ss parsed_items text Ht Hss.
  unfold clean_motd, clean_motd_try. cbn [raw py_get mbind result_bind].
  rewrite Ht, Hss. unfold py_join_empty. cbn [py_iter mbind result_bind].
  rewrite all_str_strings. reflexivity.
Qed.

Lemma clean_motd_text_and_extras_witness :
  clean_motd (Motd (Some (JDict [("extra", JList (JStr <$> ["  Hello, "; "world  "]))]))
                   None "?")
  = strip (String.append "" (concat_str ["  Hello, "; "world  "])).
Proof.
  apply (clean_motd_text_and_extras
           [("extra", JList (JStr <$> ["  Hello, "; "world  "]))] ""
           ["  Hello, "; "world  "] None "?"); reflexivity.
Defined.

(** The calls of [mcinfo] and its messages, in order, from the start. *)
Lemma mcinfo_trace remote d ip :
  (mcinfo remote d ip []).2 =
    if lookup_succeeds remote then
      match server_status remote with
      | Some st =>
          let info := ServerInfo (status_embed st) (default [] (server_query remote)) in
          let t := [CallLookup; CallStatus; CallQuery] in
          if d t info then t ++ [CallSend info]
          else t ++ [CallSend info; CallSend (CouldNotReach ip)]
      | None =>
          let t := [CallLookup; CallStatus] in
          if d t (CouldNotReach ip) then t ++ [CallSend (CouldNotReach ip)]
          else t ++ [CallSend (CouldNotReach ip); CallSend (CouldNotReach ip)]
      end
    else
      let t := [CallLookup] in
      if d t (CouldNotReach ip) then t ++ [CallSend (CouldNotReach ip)]
      else t ++ [CallSend (CouldNotReach ip); CallSend (CouldNotReach ip)].
Proof.
  unfold mcinfo, try_catch, attempt, followup_send.
  cbv [mbind mret IO_bind IO_ret]. cbn [app].
  destruct (lookup_succeeds remote); cbn [negb app].
  - destruct (server_status remote) as [st|]; cbn [app].
    + destruct (server_query remote) as [names|]; cbn [app default from_option id];
        destruct (d _ _); cbn [app snd]; try reflexivity;
        try (destruct (d _ _); reflexivity).
    + destruct (d _ _); cbn [app snd]; try reflexivity;
        try (destruct (d _ _); reflexivity).
  - destruct (d _ _); cbn [app snd]; try reflexivity;
      try (destruct (d _ _); reflexivity).
Qed.

(** Membership in a list given by its items. *)
Ltac in_items H :=
  repeat (apply elem_of_cons in H as [H|H]; [try discriminate H|]);
  try (apply elem_of_nil in H; destruct H).

(** X25. The MOTD field of the embed of [/mcinfo] is never empty and never
    starts with white space: an empty cleaned message is shown as
    "Unknown". *)
Theorem mcinfo_motd_never_empty :
  forall remote d ip embed players,
    CallSend (ServerInfo embed players) ∈ (mcinfo remote d ip []).2 ->
    exists shown,
      Field [Lit "MOTD"] [Lit shown] false ∈ embed /\
      shown <> "" /\ strip shown = shown.
Proof.
  intros remote d ip embed players. rewrite mcinfo_trace.
  assert (Hst : forall st, embed = status_embed st ->
            exists shown, Field [Lit "MOTD"] [Lit shown] false ∈ embed /\
                          shown <> "" /\ strip shown = shown).
  { intros st ->. destruct (clean_motd_is_stripped (status_motd st)) as [Hs _].
    exists (if truthy (JStr (clean_motd (status_motd st)))
            then clean_motd (status_motd st) else "Unknown").
    split; [do 3 apply list_elem_of_further; apply list_elem_of_here|].
    cbn [truthy].
    destruct (String.eqb_spec (clean_motd (status_motd st)) ""); cbn [negb].
    - split; [discriminate | reflexivity].
    - split; [assumption | exact Hs]. }
  destruct (lookup_succeeds remote).
  - destruct (server_status remote) as [st|]; cbv zeta.
    + destruct (d _ _); cbn [app]; intros H; in_items H;
        injection H as -> _; apply (Hst st); reflexivity.
    + destruct (d _ _); cbn [app]; intros H; in_items H.
  - cbv zeta. destruct (d _ _); cbn [app]; intros H; in_items H.
Qed.

Lemma mcinfo_motd_never_empty_witness :
  exists shown,
    Field [Lit "MOTD"] [Lit shown] false
      ∈ status_embed (Status "1.20.1" 3 20 (Motd None None "   ")) /\
    shown <> "" /\ strip shown = shown.
Proof.
  apply (mcinfo_motd_never_empty
           (JavaServer true (Some (Status "1.20.1" 3 20 (Motd None None "   "))) None)
           (fun _ _ => true) "play.example.org" _ []).
  vm_compute. do 3 apply list_elem_of_further. apply list_elem_of_here.
Defined.


Lemma clean_motd_is_stripped_witness :
  clean_motd (Motd None (Some [CFormat; CStr "  Survival "; CFormat; CStr "SMP  "]) "")
    = "Survival SMP" /\
  is_space "S"%char = false.
Proof.
  split; [reflexivity|].
  apply (proj2 (clean_motd_is_stripped
                  (Motd None (Some [CFormat; CStr "  Survival "; CFormat; CStr "SMP  "]) ""))
               "S"%char "urvival SMP").
  reflexivity.
Defined.


(** ** /whois *)

(** X27. [/whois] sends exactly one request, to [/who/<server_ip>]; when it
    goes on to show players, the body it shows is an object and the players
    are the truthy value under its "players" key. *)
Theorem whois_cmd_shows_players :
  forall net server_ip w,
    sent (exec (whois_cmd net server_ip) w)
      = sent w ++ [Request (String.append API_URL_WHO (String.append "/" server_ip)) ∅] /\
    (forall data players,
       outcome (whois_cmd net server_ip) w = inr (ShowPlayers data players) ->
       truthy players = true /\
       exists d, data = JDict d /\ dict_get d "players" = Some players).
Proof.
  intros net server_ip w. unfold whois_cmd, fetch_who, response_json. msimpl.
  destruct (net _) as [r|]; [|split; [reflexivity | discriminate]].
  destruct (negb (status_code r =? 200)); [split; [reflexivity | discriminate]|].
  destruct (body r) as [data|]; [|split; [reflexivity | discriminate]].
  cbn [fst snd sent]. destruct (truthy data) eqn:Ht; cbn [negb];
    [|split; [reflexivity | discriminate]].
  destruct data as [| | | | |d]; cbn [py_get];
    try (split; [reflexivity | discriminate]).
  destruct (truthy (default (JList []) (dict_get d "players"))) eqn:Hp; cbn [negb];
    [|split; [reflexivity | discriminate]].
  split; [reflexivity|]. cbn [fst]. intros data players H. injection H as <- <-.
  split; [exact Hp|]. exists d. split; [reflexivity|].
  destruct (dict_get d "players"); [reflexivity | discriminate Hp].
Qed.

Lemma whois_cmd_shows_players_witness :
  let data := JDict [("server", JDict [("ip", JStr "198.51.100.1"); ("port", JNum 25565)]);
                     ("players", JList [player_record "Notch"])] in
  truthy (JList [player_record "Notch"]) = true /\
  exists d, data = JDict d /\ dict_get d "players" = Some (JList [player_record "Notch"]).
Proof.
  intros data.
  apply (proj2 (whois_cmd_shows_players (net_status 200 (Some data)) "198.51.100.1"
                  (sample_session 1 0 (sample_page 20)))
           data (JList [player_record "Notch"])).
  reflexivity.
Defined.
